(** * kenretto/daemon: the daemonization lifecycle, verified against its specification

    A shallow embedding of [daemon.go] (the lifecycle controller [Process], its
    signal router and its three built-in handlers) and of [pid.go] (the PID
    record), followed by the theorems that settle the specification's claims.

    Go values are modelled as follows:
    - a [string] is a [string]; an [error] is its text, a possibly-nil [error]
      an [option string] ([None] is [nil]);
    - a [*os.File] is an [option Fd] ([None] is the nil pointer), an [Fd]
      being a descriptor number;
    - an [int] is a [Z];
    - a [map] is a [gmap], a Go [nil] map being the empty one (reads of a nil
      map behave as reads of an empty map, and [On] allocates before writing);
    - the operating system and the workload are an explicit [World] that every
      primitive reads and updates; the calls a program makes are recorded, in
      order, in the world's trace;
    - a function of the package is a program [Prog], a tree of atomic steps
      on the world that returns, panics, exits the process or blocks; the
      goroutine of the restart handler runs beside the handler, step by step,
      as a scheduler chooses, and what is proved of it holds for every
      schedule;
    - the signals a process receives are a list, which [Listen] consumes; when
      it is exhausted the process waits. *)

From Stdlib Require Import ZArith String Ascii List DecimalString DecimalPos.
From stdpp Require Import base gmap strings list.

Local Open Scope string_scope.
Local Open Scope list_scope.
Local Open Scope Z_scope.

(** ** Go library functions used by the package *)

(** [strconv.Itoa]: base-10 text of an [int]. *)
Module strconv.
Definition Itoa (i : Z) : string := NilZero.string_of_int (Z.to_int i).
End strconv.


(** ** The world a daemon process runs in *)

(** An open file, by descriptor number; a [*os.File] is an [option Fd]. *)
Abbreviation Fd := nat.

(** [os.Signal], by signal number. *)
Abbreviation Signal := Z.

(** [exec.Cmd], the fields the package sets. *)
Record Cmd := mkCmd {
  Path : string;
  Args : list string;
  Env : list string;
  Stdin : option Fd;
  Stdout : option Fd;
  Stderr : option Fd;
}.

(** The [Worker] interface.  A workload is a state [W] with the five methods;
    [Stop] and [Restart] return the error (or [nil]) and the next state.  The
    methods act on the workload alone: they leave the environment, the files
    and the descriptors of the daemon as they are.  A call is one atomic step
    of the world, recorded when it returns. *)
Class Worker (W : Type) := {
  PidSavePath : W -> string;
  Name : W -> string;
  Start : W -> W;
  Stop : W -> option string * W;
  Restart : W -> option string * W;
}.

(** What a process did, call by call. *)
Inductive Event :=
| EvUnsetenv (key : string)
| EvOpenWrite (filename text : string) (f : Fd)
| EvClose (f : option Fd)
| EvRemove (filename : string)
| EvWriteString (f : option Fd) (text : string)
| EvCmdStart (cmd : Cmd) (err : option string)
| EvRelease (err : option string)
| EvWorkerStart
| EvWorkerStop (err : option string)
| EvWorkerRestart (err : option string).

(** The part of the world the process cannot change: what the operating
    system will answer. *)
Record Host := mkHost {
  h_getwd : string + string;        (* os.Getwd: the directory, or its error *)
  h_arg0 : string;                  (* os.Args[0] *)
  h_args : list string;             (* os.Args[1:] *)
  h_getpid : Z;                     (* os.Getpid *)
  h_denied : gset string;           (* paths the process may not create or unlink *)
  h_start_err : option string;      (* what the command's Start returns *)
  h_lookpath : string -> string * option string;
                                    (* exec.LookPath: the path, the error *)
  h_sched : list bool;              (* the scheduler's choices between two goroutines *)
}.

Section World.
Context {W : Type}.

Record World := mkWorld {
  w_host : Host;
  w_env : gmap string string;     (* the environment variables *)
  w_files : gmap string string;   (* the file system: path to content *)
  w_open : gset Fd;             (* the open descriptors *)
  w_worker : W;                   (* the workload *)
  w_trace : list Event;           (* the calls made so far, oldest first *)
}.

Definition log (e : Event) (w : World) : World :=
  mkWorld (w_host w) (w_env w) (w_files w) (w_open w) (w_worker w)
          (w_trace w ++ [e]).
Definition set_env (env : gmap string string) (w : World) : World :=
  mkWorld (w_host w) env (w_files w) (w_open w) (w_worker w) (w_trace w).
Definition set_files (fs : gmap string string) (w : World) : World :=
  mkWorld (w_host w) (w_env w) fs (w_open w) (w_worker w) (w_trace w).
Definition set_open (o : gset Fd) (w : World) : World :=
  mkWorld (w_host w) (w_env w) (w_files w) o (w_worker w) (w_trace w).
Definition set_worker (x : W) (w : World) : World :=
  mkWorld (w_host w) (w_env w) (w_files w) (w_open w) x (w_trace w).

(** *** Programs

    How a call ends: it returns, it panics, the process exits, or it blocks
    for ever (waiting for a signal that never comes). *)
Inductive Result (A : Type) :=
| Ok (a : A)
| Panicked (msg : string)
| Exited (code : Z)
| Blocked.
Arguments Ok {A} a.
Arguments Panicked {A} msg.
Arguments Exited {A} code.
Arguments Blocked {A}.

(** A program is a tree of atomic steps on the world, each followed by the
    rest of the program. *)
Inductive Prog (A : Type) : Type :=
| Done (r : Result A)
| Act {X : Type} (step : World -> X * World) (k : X -> Prog A).
Arguments Done {A} r.
Arguments Act {A X} step k.

Definition Ret {A} (a : A) : Prog A := Done (Ok a).
Definition Panic {A} (msg : string) : Prog A := Done (Panicked msg).
Definition Block {A} : Prog A := Done Blocked.

Fixpoint bind {A B} (m : Prog A) (k : A -> Prog B) : Prog B :=
  match m with
  | Done (Ok a) => k a
  | Done (Panicked msg) => Done (Panicked msg)
  | Done (Exited code) => Done (Exited code)
  | Done Blocked => Done Blocked
  | Act step k' => Act step (fun x => bind (k' x) k)
  end.

(** Running a program alone, to its end. *)
Fixpoint run {A} (m : Prog A) (w : World) : Result A * World :=
  match m with
  | Done r => (r, w)
  | Act step k => let '(x, w') := step w in run (k x) w'
  end.

(** [go g; m; <-done], [g] sending on [done] as its last action: the steps
    of [m] and of the goroutine [g] interleave as the scheduler chooses
    ([true]: [m] moves).  [m] then waits for [g].  A panic or an exit in
    either ends the process there. *)
Definition join {A} (a : A) (r : Result unit) : Result A :=
  match r with
  | Ok _ => Ok a
  | Panicked msg => Panicked msg
  | Exited code => Exited code
  | Blocked => Blocked
  end.

Definition then_join {A} (m : Prog A) (g : Prog unit) (w : World)
  : Result A * World :=
  let '(r, w') := run m w in
  match r with
  | Ok a => let '(rg, w'') := run g w' in (join a rg, w'')
  | _ => (r, w')
  end.

Fixpoint par {A} (sched : list bool) (m : Prog A) (g : Prog unit) (w : World)
  : Result A * World :=
  match sched with
  | [] => then_join m g w
  | mine :: sched' =>
      match m, g with
      | Done _, _ => then_join m g w
      | Act _ _, Done (Ok _) => run m w
      | Act _ _, Done (Panicked msg) => (Panicked msg, w)
      | Act _ _, Done (Exited code) => (Exited code, w)
      | Act _ _, Done Blocked => run m w
      | Act sm km, Act sg kg =>
          if mine : bool
          then let '(x, w') := sm w in par sched' (km x) g w'
          else let '(x, w') := sg w in par sched' m (kg x) w'
      end
  end.

(** The same, as one step of a larger program; the scheduler's choices are
    the host's. *)
Definition Par {A} (m : Prog A) (g : Prog unit) : Prog A :=
  Act (fun w => par (h_sched (w_host w)) m g w) Done.
End World.

Arguments World W : clear implicits.
Arguments Prog W A : clear implicits.
Arguments Ok {A} a.
Arguments Panicked {A} msg.
Arguments Exited {A} code.
Arguments Blocked {A}.
Arguments Done {W A} r.
Arguments Act {W A X} step k.

Declare Scope prog_scope.
Delimit Scope prog_scope with prog.
Notation "x <- m ;; k" := (bind m (fun x => k))
  (at level 100, m at next level, right associativity) : prog_scope.
Notation "m ;; k" := (bind m (fun _ => k))
  (at level 100, right associativity) : prog_scope.
Local Open Scope prog_scope.

(** ** Package [os] *)
Module os.

(** What [Getenv] and [Environ] read off the environment. *)
Definition getenv (env : gmap string string) (key : string) : string :=
  if bool_decide (key = "") then "" else default "" (env !! key).

Definition environ (env : gmap string string) : list string :=
  (fun kv : string * string => kv.1 +:+ "=" +:+ kv.2) <$> map_to_list env.

Section ops.
Context {W : Type}.

Definition Stdin : Fd := 0%nat.
Definition Stdout : Fd := 1%nat.
Definition Stderr : Fd := 2%nat.

(** [Getenv]: the value, or the empty string when the variable is unset
    (or the key empty). *)
Definition Getenv (key : string) : Prog W string :=
  Act (fun w => (getenv (w_env w) key, w)) Ret.

(** [Unsetenv]: removes the variable; it does not fail. *)
Definition Unsetenv (key : string) : Prog W (option string) :=
  Act (fun w =>
         (None, log (EvUnsetenv key) (set_env (delete key (w_env w)) w)))
      Ret.

(** [Environ]: the environment as [key=value] strings. *)
Definition Environ : Prog W (list string) :=
  Act (fun w => (environ (w_env w), w)) Ret.

(** [Args]: the program name and the arguments after it. *)
Definition Args : Prog W (string * list string) :=
  Act (fun w => ((h_arg0 (w_host w), h_args (w_host w)), w)) Ret.

Definition Getpid : Prog W Z :=
  Act (fun w => (h_getpid (w_host w), w)) Ret.

Definition Getwd : Prog W (string + string) :=
  Act (fun w => (h_getwd (w_host w), w)) Ret.

(** [Remove]: unlinks the named file; fails when there is none, or when the
    process may not. *)
Definition Remove (name : string) : Prog W (option string) :=
  Act (fun w =>
         match w_files w !! name with
         | None =>
             (Some ("remove " +:+ name +:+ ": no such file or directory"),
              log (EvRemove name) w)
         | Some _ =>
             if bool_decide (name ∈ h_denied (w_host w))
             then (Some ("remove " +:+ name +:+ ": permission denied"),
                   log (EvRemove name) w)
             else (None,
                   log (EvRemove name)
                       (set_files (delete name (w_files w)) w))
         end) Ret.

(** [(f *File) Close]: on a nil file it returns [ErrInvalid]. *)
Definition Close (f : option Fd) : Prog W (option string) :=
  Act (fun w =>
         match f with
         | None => (Some "invalid argument", log (EvClose f) w)
         | Some fd =>
             if bool_decide (fd ∈ w_open w)
             then (None, log (EvClose f) (set_open (w_open w ∖ {[fd]}) w))
             else (Some "file already closed", log (EvClose f) w)
         end) Ret.

(** [(f *File) WriteString]: the call is recorded with its text.  Every
    caller in the package drops both of its results, so the step returns
    nothing. *)
Definition WriteString (f : option Fd) (text : string) : Prog W unit :=
  Act (fun w => (tt, log (EvWriteString f text) w)) Ret.

Definition Exit {A} (code : Z) : Prog W A := Done (Exited code).
End ops.
End os.

(** ** Package [path/filepath] *)

(** [path/filepath] on Unix, as far as [filepath.Abs] needs it: [Clean] and
    [Join] are lexical, [Abs] asks for the working directory when the path is
    relative. *)
Module filepath.

(** [IsAbs]: the path starts with the separator. *)
Definition IsAbs (path : string) : bool := String.prefix "/" path.

(** [strings.Split(s, "/")], the current element being accumulated in [cur]
    (reversed). *)
Fixpoint split_from (cur : string) (s : string) : list string :=
  match s with
  | EmptyString => [String.rev cur]
  | String c rest =>
      if Ascii.eqb c "/" then String.rev cur :: split_from "" rest
      else split_from (String c cur) rest
  end.

Definition split (s : string) : list string := split_from "" s.

(** One element of the lexical clean-up; [out] is the output so far, last
    element first.  Empty and [.] elements vanish, [..] removes the element
    before it, and is kept only at the start of a path that is not rooted. *)
Definition clean_step (rooted : bool) (out : list string) (elem : string)
  : list string :=
  if bool_decide (elem = "") || bool_decide (elem = ".") then out
  else if bool_decide (elem = "..") then
    match out with
    | top :: below =>
        if bool_decide (top = "..") then elem :: out else below
    | [] => if rooted then [] else [elem]
    end
  else elem :: out.

Fixpoint join_with (sep : string) (l : list string) : string :=
  match l with
  | [] => ""
  | [x] => x
  | x :: rest => x +:+ sep +:+ join_with sep rest
  end.

(** [Clean]: the shortest equivalent path by purely lexical processing. *)
Definition Clean (path : string) : string :=
  if bool_decide (path = "") then "."
  else
    let rooted := IsAbs path in
    let out := fold_left (clean_step rooted) (split path) [] in
    let body := join_with "/" (rev out) in
    if rooted then "/" +:+ body
    else if bool_decide (body = "") then "." else body.

(** [Join(a, b)]: empty elements are ignored, the result is cleaned. *)
Definition Join (a b : string) : string :=
  if bool_decide (a = "") then
    if bool_decide (b = "") then "" else Clean b
  else Clean (a +:+ "/" +:+ b).

(** [Base]: the last element of the path.  Trailing separators are removed
    first; an empty path gives [.], a path of separators only gives the
    separator.  The path is read from its end. *)
Fixpoint strip_separators (reversed : string) : string :=
  match reversed with
  | String c rest =>
      if Ascii.eqb c "/" then strip_separators rest else reversed
  | EmptyString => EmptyString
  end.

Fixpoint last_element (reversed : string) : string :=
  match reversed with
  | String c rest =>
      if Ascii.eqb c "/" then EmptyString else String c (last_element rest)
  | EmptyString => EmptyString
  end.

Definition Base (path : string) : string :=
  if bool_decide (path = "") then "."
  else
    let path :=
      String.rev (last_element (strip_separators (String.rev path))) in
    if bool_decide (path = "") then "/" else path.

(** What [Abs] returns, given what [os.Getwd] answers. *)
Definition absolute (getwd : string + string) (path : string)
  : string + string :=
  if IsAbs path then inl (Clean path)
  else match getwd with
       | inl wd => inl (Join wd path)
       | inr err => inr err
       end.

(** [Abs]: an absolute path is cleaned; a relative one is joined to the
    working directory, and the error of [os.Getwd] is the only error. *)
Definition Abs {W} (path : string) : Prog W (string + string) :=
  if IsAbs path then Ret (inl (Clean path))
  else
    wd <- os.Getwd ;;
    match wd with
    | inl wd => Ret (inl (Join wd path))
    | inr err => Ret (inr err)
    end.

End filepath.

(** ** Package [os/exec] *)
Module exec.
Section ops.
Context {W : Type}.

(** [LookPath]: the search of an executable in the directories of [PATH];
    it returns the path found, if any, and the error. *)
Definition LookPath (file : string) : Prog W (string * option string) :=
  Act (fun w => (h_lookpath (w_host w) file, w)) Ret.

(** [Command]: the path and the arguments of the command, the program
    name being the first argument.  A name that is its own base (it has no
    directory) is searched with [LookPath], and the path found, if any,
    becomes the path of the command.  (The error of the search is kept in
    the command for [Start] to return: it belongs to [h_start_err].) *)
Definition Command (name : string) (arg : list string) : Prog W Cmd :=
  let cmd := mkCmd name (name :: arg) [] None None None in
  if bool_decide (filepath.Base name = name) then
    r <- LookPath name ;;
    if bool_decide (r.1 <> "")
    then Ret (mkCmd r.1 (Args cmd) (Env cmd) (Stdin cmd) (Stdout cmd)
                    (Stderr cmd))
    else Ret cmd
  else Ret cmd.

(** [(c *Cmd) Start]: starts the command without waiting for it. *)
Definition Start (c : Cmd) : Prog W (option string) :=
  Act (fun w =>
         let err := h_start_err (w_host w) in
         (err, log (EvCmdStart c err) w)) Ret.

(** [(p *os.Process) Release], on the process of a started command: on
    Unix it forgets the process and returns [nil]. *)
Definition Release : Prog W (option string) :=
  Act (fun w => (None, log (EvRelease None) w)) Ret.
End ops.
End exec.

(** ** Package [daemon]: signals and constants *)

(** [os.Interrupt]. *)
Definition Interrupt : Signal := 2.

(** Modelled from the spec: the declarations of [SIGUSR1] and [SIGUSR2] are
    not among the sources; they are the platform's first and second
    user-defined signals (here with their Linux numbers). *)
Definition SIGUSR1 : Signal := 10.
Definition SIGUSR2 : Signal := 12.

(** [EnvName]: the default name of the variable that marks the child. *)
Definition EnvName : string := "DAEMON".

(** Modelled from the spec: the helper [write(filename, text)], which [Save]
    calls, is not among the sources.  The specification has it open or create
    the file for writing, write the text, so that the file holds exactly that
    text, and hand back the open file; it fails with an I/O error when the
    file cannot be opened there. *)
Definition write {W} (filename text : string)
  : Prog W (option Fd * option string) :=
  Act (fun w =>
         if bool_decide (filename ∈ h_denied (w_host w))
         then ((None, Some ("open " +:+ filename +:+ ": permission denied")), w)
         else
           let fd := fresh (w_open w) in
           ((Some fd, None),
            log (EvOpenWrite filename text fd)
                (set_open ({[fd]} ∪ w_open w)
                   (set_files (<[filename := text]> (w_files w)) w)))) Ret.

(** ** Package [daemon]: the PID record ([pid.go]) *)
Module Pid.

(** [type Pid struct]. *)
Record t := mk {
  ServicesName : string;   (* service name, not process name *)
  SavePath : string;       (* pid save path *)
  Pid : Z;                 (* pid num *)
  File : option Fd;        (* file *)
}.

Definition set_File (f : option Fd) (pid : t) : t :=
  mk (ServicesName pid) (SavePath pid) (Pid pid) f.

Section methods.
Context {W : Type}.

(** [func (pid Pid) SaveFilename() string]. *)
Definition SaveFilename (pid : t) : Prog W string :=
  r <- filepath.Abs (SavePath pid) ;;
  match r with
  | inr err => Panic err
  | inl path => Ret (path +:+ "/" +:+ ServicesName pid +:+ ".pid")
  end.

(** [func (pid Pid) Save() error].  The receiver is a value: [pid] is the
    method's own copy of the record, and the assignment to [pid.File]
    changes that copy alone, which is gone when the method returns. *)
Definition Save (pid : t) : Prog W (option string) :=
  filename <- SaveFilename pid ;;
  r <- write filename (strconv.Itoa (Pid pid)) ;;
  let pid := set_File r.1 pid in
  Ret r.2.

(** [func (pid Pid) Remove()]: both errors are dropped. *)
Definition Remove (pid : t) : Prog W unit :=
  _ <- os.Close (File pid) ;;
  filename <- SaveFilename pid ;;
  _ <- os.Remove filename ;;
  Ret tt.
End methods.
End Pid.

(** ** Package [daemon]: the process ([daemon.go]) *)
Section Process.
Context `{Worker W}.

(** The workload's methods, as steps of the world. *)
Definition worker_Name : Prog W string :=
  Act (fun w => (Name (w_worker w), w)) Ret.
Definition worker_PidSavePath : Prog W string :=
  Act (fun w => (PidSavePath (w_worker w), w)) Ret.
Definition worker_Stop : Prog W (option string) :=
  Act (fun w =>
         let r := Stop (w_worker w) in
         (r.1, log (EvWorkerStop r.1) (set_worker r.2 w))) Ret.
Definition worker_Restart : Prog W (option string) :=
  Act (fun w =>
         let r := Restart (w_worker w) in
         (r.1, log (EvWorkerRestart r.1) (set_worker r.2 w))) Ret.

(** [go process.worker.Start()]: the goroutine is launched and runs beside
    the caller from then on; the launch is one step. *)
Definition go_worker_Start : Prog W unit :=
  Act (fun w => (tt, log EvWorkerStart (set_worker (Start (w_worker w)) w)))
      Ret.

(** A signal handler, [func()].  The handlers are closures over the process
    pointer.  The three that the package creates are named here and get their
    body, and the process as it is when the signal arrives, from [invoke]
    below; a handler of the caller's is what it does to the world. *)
Inductive Handler :=
| DefaultInterruptHandle
| DefaultStopHandle
| DefaultRestartHandle
| UserHandle (fn : World W -> Result unit * World W).

(** [type Process struct]; the worker it points to is the world's. *)
Record Process := mkProcess {
  Pipeline : list (option Fd);   (* input/output pipe, 0->input, 1->output, 2->err *)
  Pid : Pid.t;                   (* pid info *)
  DaemonTag : string;
  SignalHandlers : gmap Signal Handler;   (* signal handlers *)
}.

(** [SetPipeline]: at most three pipes, stored at their indices. *)
Definition SetPipeline (pipes : list (option Fd)) (process : Process)
  : Process :=
  let pipes := if decide (3 < length pipes)%nat then take 3 pipes else pipes in
  mkProcess
    (foldl (fun pl ip => <[ip.1 := ip.2]> pl) (Pipeline process)
           (imap pair pipes))
    (Pid process) (DaemonTag process) (SignalHandlers process).

(** [SetDaemonTag]. *)
Definition SetDaemonTag (name : string) (process : Process) : Process :=
  mkProcess (Pipeline process) (Pid process) name (SignalHandlers process).

(** [On]: the last handler registered for a signal is the one kept. *)
Definition On (signal : Signal) (fn : Handler) (process : Process) : Process :=
  mkProcess (Pipeline process) (Pid process) (DaemonTag process)
            (<[signal := fn]> (SignalHandlers process)).

(** The closure of [registerDefaultInterruptHandle]. *)
Definition interruptHandle (process : Process) : Prog W unit :=
  err <- worker_Stop ;;
  (match err with
   | Some e => os.WriteString (Pipeline process !!! 1%nat) e
   | None => Ret tt
   end) ;;
  Pid.Remove (Pid process) ;;
  os.Exit 0.

Definition registerDefaultInterruptHandle (process : Process) : Process :=
  On Interrupt DefaultInterruptHandle process.

(** The closure of [registerDefaultStopHandle]. *)
Definition stopHandle (process : Process) : Prog W unit :=
  err <- worker_Stop ;;
  (match err with
   | Some e => os.WriteString (Pipeline process !!! 1%nat) e
   | None => Ret tt
   end) ;;
  Pid.Remove (Pid process) ;;
  os.Exit 0.

Definition registerDefaultStopHandle (process : Process) : Process :=
  On SIGUSR1 DefaultStopHandle process.

(** [IsChild]. *)
Definition IsChild (process : Process) : Prog W bool :=
  v <- os.Getenv (DaemonTag process) ;;
  Ret (bool_decide (v = "true")).

(** [Run], the dispatch loop it enters as a child being [listen]. *)
Definition Run_with (listen : Prog W unit) (process : Process)
  : Prog W (option string) :=
  child <- IsChild process ;;
  if child : bool then
    err <- Pid.Save (Pid process) ;;
    match err with
    | Some e => Ret (Some e)
    | None =>
        go_worker_Start ;;
        listen ;;
        Ret None
    end
  else
    args <- os.Args ;;
    cmd <- exec.Command args.1 args.2 ;;
    environ <- os.Environ ;;
    let cmd := mkCmd (Path cmd) (Args cmd)
                     (environ ++ [DaemonTag process +:+ "=true"])
                     (Stdin cmd) (Stdout cmd) (Stderr cmd) in
    let cmd := mkCmd (Path cmd) (Args cmd) (Env cmd)
                     (Pipeline process !!! 0%nat)
                     (Pipeline process !!! 1%nat)
                     (Pipeline process !!! 2%nat) in
    err <- exec.Start cmd ;;
    match err with
    | Some e => Ret (Some e)
    | None => exec.Release
    end.

(** The closure of [registerDefaultRestartHandle]; [run_] is its call of
    [process.Run()]. *)
Definition restartHandle (run_ : Prog W (option string)) (process : Process)
  : Prog W unit :=
  Pid.Remove (Pid process) ;;
  Par (_ <- os.Unsetenv (DaemonTag process) ;;
       err <- run_ ;;
       match err with
       | Some e => os.WriteString (Pipeline process !!! 1%nat) e
       | None => Ret tt
       end)
      (err <- worker_Restart ;;
       match err with
       | Some e => os.WriteString (Pipeline process !!! 1%nat) e
       | None => Ret tt
       end) ;;
  os.Exit 0.

Definition registerDefaultRestartHandle (process : Process) : Process :=
  On SIGUSR2 DefaultRestartHandle process.

(** Calling a registered handler. *)
Definition invoke (listen : Prog W unit) (handler : Handler)
  (process : Process) : Prog W unit :=
  match handler with
  | DefaultInterruptHandle => interruptHandle process
  | DefaultStopHandle => stopHandle process
  | DefaultRestartHandle => restartHandle (Run_with listen process) process
  | UserHandle fn => Act fn Done
  end.

(** [Listen], on the signals the process receives, in their order: a signal
    with a handler has it called, any other is dropped; when no signal is
    left the loop waits. *)
Fixpoint Listen (received : list Signal) (process : Process) : Prog W unit :=
  match received with
  | [] => Block
  | sig :: rest =>
      match SignalHandlers process !! sig with
      | Some handler =>
          invoke (Listen rest process) handler process ;;
          Listen rest process
      | None => Listen rest process
      end
  end.

(** [Run]. *)
Definition Run (received : list Signal) (process : Process)
  : Prog W (option string) :=
  Run_with (Listen received process) process.

(** [NewProcess]. *)
Definition NewProcess : Prog W Process :=
  name <- worker_Name ;;
  path <- worker_PidSavePath ;;
  pid <- os.Getpid ;;
  let process :=
    mkProcess [Some os.Stdin; Some os.Stdout; Some os.Stderr]
              (Pid.mk name path pid None) EnvName ∅ in
  let process := registerDefaultInterruptHandle process in
  let process := registerDefaultStopHandle process in
  let process := registerDefaultRestartHandle process in
  Ret process.
End Process.

Arguments Handler W : clear implicits.
Arguments Process W : clear implicits.

(** ** The example workload ([examples/main.go]) *)

(** [type HTTPServer struct]: whether the server is serving, what
    [http.Server.Shutdown] will return, and the lines printed so far. *)
Record HTTPServer := mkHTTPServer {
  serving : bool;
  shutdown_err : option string;
  printed : list string;
}.

Definition HTTPServer_Stop (s : HTTPServer) : option string * HTTPServer :=
  let s := mkHTTPServer (serving s) (shutdown_err s)
                        (printed s ++ ["closing web server"]) in
  let err := shutdown_err s in
  let s := mkHTTPServer false (shutdown_err s) (printed s) in
  let s := mkHTTPServer (serving s) (shutdown_err s)
                        (printed s ++ ["web server closed"]) in
  (err, s).

Definition HTTPServer_Restart (s : HTTPServer) : option string * HTTPServer :=
  let s := mkHTTPServer (serving s) (shutdown_err s)
                        (printed s ++ ["closing web server"]) in
  HTTPServer_Stop s.

#[export] Instance HTTPServer_Worker : Worker HTTPServer := {
  PidSavePath _ := "./";
  Name _ := "http";
  Start s := mkHTTPServer true (shutdown_err s) (printed s ++ ["yes <nil>"]);
  Stop := HTTPServer_Stop;
  Restart := HTTPServer_Restart;
}.

(** The answer of [exec.LookPath] when [PATH] has no such executable. *)
Definition not_found (file : string) : string * option string :=
  ("",
   Some ("exec: "
           +:+ String (ascii_of_nat 34)
                 (file +:+ String (ascii_of_nat 34)
                             ": executable file not found in $PATH"))).

(** A host for the example: started as [/usr/local/bin/example http start]
    from [/srv/app], as process 4242. *)
Definition example_host : Host :=
  mkHost (inl "/srv/app") "/usr/local/bin/example" ["http"; "start"] 4242
         ∅ None not_found [].

(** The world of the launcher, and the world of the child it starts. *)
Definition example_world (h : Host) (env : gmap string string)
  (shutdown : option string) : World HTTPServer :=
  mkWorld h env ∅ {[os.Stdin; os.Stdout; os.Stderr]}
          (mkHTTPServer false shutdown []) [].

Definition parent_env : gmap string string := {["PATH" := "/usr/bin"]}.
Definition child_env : gmap string string := <["DAEMON" := "true"]> parent_env.

(** The process [NewProcess] builds in the example's world. *)
Definition example_process : Process HTTPServer :=
  mkProcess [Some os.Stdin; Some os.Stdout; Some os.Stderr]
            (Pid.mk "http" "./" 4242 None) EnvName
            (<[SIGUSR2 := DefaultRestartHandle]>
               (<[SIGUSR1 := DefaultStopHandle]>
                  (<[Interrupt := DefaultInterruptHandle]> ∅))).

(** ** Vocabulary of the specification *)

(** The path of the PID file of service [name] saved under the directory
    [dir]: [<dir>/<name>.pid]. *)
Definition pid_file (dir name : string) : string := dir +:+ "/" +:+ name +:+ ".pid".

(** The interleavings of two sequences of events: [Shuffle l1 l2 l] when [l]
    is made of the elements of [l1] and of [l2], each sequence in its order. *)
Inductive Shuffle {A : Type} : list A -> list A -> list A -> Prop :=
| Shuffle_nil : Shuffle [] [] []
| Shuffle_left x l1 l2 l : Shuffle l1 l2 l -> Shuffle (x :: l1) l2 (x :: l)
| Shuffle_right x l1 l2 l : Shuffle l1 l2 l -> Shuffle l1 (x :: l2) (x :: l).

(** How many of the events [l] satisfy [P]. *)
Definition count (P : Event -> bool) (l : list Event) : nat :=
  length (List.filter P l).

Definition is_restart (e : Event) : bool :=
  match e with EvWorkerRestart _ => true | _ => false end.
Definition is_worker_start (e : Event) : bool :=
  match e with EvWorkerStart => true | _ => false end.
Definition is_spawn (e : Event) : bool :=
  match e with EvCmdStart _ _ => true | _ => false end.
(** A child that did start. *)
Definition is_started (e : Event) : bool :=
  match e with EvCmdStart _ None => true | _ => false end.


Section Vocabulary.
Context `{Worker W}.

(** A handler's report of an error of the workload or of [Run]: the text
    goes to [Pipeline[1]]; nothing happens without an error. *)
Definition report_events (process : Process W) (err : option string)
  : list Event :=
  match err with
  | Some e => [EvWriteString (Pipeline process !!! 1%nat) e]
  | None => []
  end.

(** The path of the command [exec.Command] builds for [name]: the name
    itself when it has a directory, and when [PATH] has no such executable;
    the path found in [PATH] otherwise. *)
Definition command_path (host : Host) (name : string) : string :=
  if bool_decide (filepath.Base name = name) then
    if bool_decide ((h_lookpath host name).1 <> "")
    then (h_lookpath host name).1
    else name
  else name.

(** The child a launcher is to start: the executable and the arguments of
    the current invocation, the whole environment followed by the daemon
    tag set to [true], the three configured streams. *)
Definition child_command (process : Process W) (host : Host)
  (env : gmap string string) : Cmd :=
  mkCmd (command_path host (h_arg0 host)) (h_arg0 host :: h_args host)
        (os.environ env ++ [DaemonTag process +:+ "=true"])
        (Pipeline process !!! 0%nat)
        (Pipeline process !!! 1%nat)
        (Pipeline process !!! 2%nat).

(** What the launcher path of [Run] does, call by call. *)
Definition spawn_events (process : Process W) (host : Host)
  (env : gmap string string) : list Event :=
  EvCmdStart (child_command process host env) (h_start_err host)
    :: match h_start_err host with
       | Some _ => []
       | None => [EvRelease None]
       end.

(** What the launcher path of [Run] returns: the error of the start, the
    release of a started child returning [nil]. *)
Definition spawn_result (host : Host) : option string := h_start_err host.

(** The world after [Pid.Remove] has closed [f] and unlinked [filename]:
    a nil or closed file leaves the descriptors as they are, and the file
    stays when there is none or when the process may not unlink it. *)
Definition open_after_close (f : option Fd) (o : gset Fd) : gset Fd :=
  match f with
  | Some fd => o ∖ {[fd]}
  | None => o
  end.

Definition files_after_remove (host : Host) (filename : string)
  (fs : gmap string string) : gmap string string :=
  if bool_decide (filename ∈ h_denied host) then fs else delete filename fs.

Definition removed (f : option Fd) (filename : string) (w : World W)
  : World W :=
  mkWorld (w_host w) (w_env w)
          (files_after_remove (w_host w) filename (w_files w))
          (open_after_close f (w_open w))
          (w_worker w)
          (w_trace w ++ [EvClose f; EvRemove filename]).

(** The world in which the child enters its dispatch loop, [w1] being the
    world in which [Save] returned: [Start] has been launched. *)
Definition listening (w1 : World W) : World W :=
  log EvWorkerStart (set_worker (Start (w_worker w1)) w1).

(** Two worlds with the same operating system, and two with the same
    workload. *)
Definition same_os (v w : World W) : Prop :=
  w_host v = w_host w /\ w_env v = w_env w /\
  w_files v = w_files w /\ w_open v = w_open w.
Definition same_worker (v w : World W) : Prop := w_worker v = w_worker w.

(** [Exec R F m w a w' es]: run from [w], or from any world like it as far
    as [R] sees, the thread [m] returns [a], brings what [R] sees to its
    state in [w'], leaves what [F] sees alone, and makes the calls [es]. *)
Fixpoint Exec {A} (R F : relation (World W)) (m : Prog W A) (w : World W)
  (a : A) (w' : World W) (es : list Event) : Prop :=
  match m with
  | Done r => r = Ok a /\ R w' w /\ es = []
  | Act step k =>
      exists x w1 (es1 es2 : list Event),
        (forall v, R v w ->
           exists v', step v = (x, v') /\ R v' w1 /\ F v' v /\
                      w_trace v' = (w_trace v ++ es1)%list) /\
        Exec R F (k x) w1 a w' es2 /\
        es = (es1 ++ es2)%list
  end.
End Vocabulary.

(** ** Concrete worlds *)

(** The launcher of the example and the child it starts. *)
Definition launcher_world : World HTTPServer :=
  example_world example_host parent_env None.
Definition child_world : World HTTPServer :=
  example_world example_host child_env None.

(** The child when the PID file may not be created. *)
Definition denied_host : Host :=
  mkHost (inl "/srv/app") "/usr/local/bin/example" ["http"; "start"] 4242
         {["/srv/app/http.pid"]} None not_found [].
Definition denied_child_world : World HTTPServer :=
  example_world denied_host child_env None.

(** The child whose working directory is gone: [os.Getwd] fails. *)
Definition lost_host : Host :=
  mkHost (inr "getwd: no such file or directory") "/usr/local/bin/example"
         ["http"; "start"] 4242 ∅ None not_found [].
Definition lost_child_world : World HTTPServer :=
  example_world lost_host child_env None.

(** The same program started from another directory. *)
Definition other_host : Host :=
  mkHost (inl "/tmp") "/usr/local/bin/example" ["http"; "start"] 4242
         ∅ None not_found [].
Definition other_child_world : World HTTPServer :=
  example_world other_host child_env None.

(** The launcher started as [example http start], the shell having found
    [example] in [/usr/local/bin], where [PATH] still has it. *)
Definition bare_host : Host :=
  mkHost (inl "/srv/app") "example" ["http"; "start"] 4242 ∅ None
         (fun file =>
            if bool_decide (file = "example")
            then ("/usr/local/bin/example", None)
            else not_found file)
         [].
Definition bare_launcher_world : World HTTPServer :=
  example_world bare_host parent_env None.

(** A child whose executable has been removed: no child can be started; its
    workload fails to shut down, and the scheduler lets the goroutine of the
    restart handler move first. *)
Definition start_fails_host : Host :=
  mkHost (inl "/srv/app") "/usr/local/bin/example" ["http"; "start"] 4242
         ∅ (Some "fork/exec /usr/local/bin/example: no such file or directory")
         not_found [false; true; true].
Definition start_fails_world : World HTTPServer :=
  example_world start_fails_host child_env (Some "http: Server closed").

(** A child whose PID file exists and may not be unlinked. *)
Definition stuck_file_world : World HTTPServer :=
  mkWorld denied_host child_env {["/srv/app/http.pid" := "4242"]}
          {[os.Stdin; os.Stdout; os.Stderr]}
          (mkHTTPServer true None []) [].

(** The world in which [Save] has returned, in a child of the example. *)
Definition saved (w : World HTTPServer) : World HTTPServer :=
  (run (Pid.Save (Pid example_process)) w).2.

(** [syscall.SIGTERM], for which the example process has no handler of the
    package. *)
Definition SIGTERM : Signal := 15.

(** ** Package [daemon]: the commands ([command.go]) *)

(** *** What the commands take from the Go library *)

(** [strconv.Atoi], for a 64-bit [int], with the functions it calls. *)
Module atoi.

(** [strconv.Quote]: the text between double quotes, a double quote and a
    backslash escaped with a backslash, the control characters written
    [\a \b \f \n \r \t \v] or [\x] and two hexadecimal digits, the
    printable ASCII characters as they are.  A byte above [0x7f] stands as it
    is, which is what [Quote] does with the printable characters of valid
    UTF-8; what it does with the others is not modelled: the function is
    exact on ASCII text. *)
Definition lowerhex (n : nat) : ascii :=
  nth n (list_ascii_of_string "0123456789abcdef") "0"%char.

Definition escape (c : ascii) : string :=
  let r := nat_of_ascii c in
  let backslash := ascii_of_nat 92 in
  if (r =? 34)%nat || (r =? 92)%nat then String backslash (String c "")
  else if ((32 <=? r) && (r <? 127))%nat || (128 <=? r)%nat then String c ""
  else if (r =? 7)%nat then String backslash "a"
  else if (r =? 8)%nat then String backslash "b"
  else if (r =? 12)%nat then String backslash "f"
  else if (r =? 10)%nat then String backslash "n"
  else if (r =? 13)%nat then String backslash "r"
  else if (r =? 9)%nat then String backslash "t"
  else if (r =? 11)%nat then String backslash "v"
  else String backslash
         (String "x"
            (String (lowerhex (r / 16)) (String (lowerhex (r mod 16)) ""))).

Fixpoint escaped (s : string) : string :=
  match s with
  | EmptyString => EmptyString
  | String c rest => escape c +:+ escaped rest
  end.

Definition Quote (s : string) : string :=
  String (ascii_of_nat 34) (escaped s +:+ String (ascii_of_nat 34) "").

(** Text of ASCII characters only. *)
Definition is_ascii (s : string) : bool :=
  forallb (fun c => (nat_of_ascii c <? 128)%nat) (list_ascii_of_string s).

(** [*strconv.NumError]: the function that failed, its input, and
    [ErrSyntax] or [ErrRange]. *)
Inductive error := ErrSyntax | ErrRange.

Record NumError := mkNumError {
  Func : string;
  Num : string;
  Err : error;
}.

Definition syntaxError (fn str : string) : NumError :=
  mkNumError fn str ErrSyntax.
Definition rangeError (fn str : string) : NumError :=
  mkNumError fn str ErrRange.

(** [(e *NumError) Error]. *)
Definition Error (e : NumError) : string :=
  "strconv." +:+ Func e +:+ ": parsing " +:+ Quote (Num e) +:+ ": "
    +:+ match Err e with
        | ErrSyntax => "invalid syntax"
        | ErrRange => "value out of range"
        end.

(** A decimal digit: [ch -= '0'; if ch > 9] on a byte in [Atoi], where what
    is below ['0'] wraps above 9, and ['0' <= c && c <= '9'] in
    [ParseUint]. *)
Definition digit (ch : ascii) : option Z :=
  let d := Z.of_nat (nat_of_ascii ch) - 48 in
  if (0 <=? d) && (d <=? 9) then Some d else None.

(** The loop of the fast path of [Atoi]: [n = n*10 + int(ch)]. *)
Fixpoint digits (s : string) (n : Z) : option Z :=
  match s with
  | EmptyString => Some n
  | String ch rest =>
      match digit ch with
      | Some d => digits rest (n * 10 + d)
      | None => None
      end
  end.

Definition min_int : Z := - 2 ^ 63.
Definition max_int : Z := 2 ^ 63 - 1.
Definition maxUint64 : Z := 2 ^ 64 - 1.

(** The loop of [ParseUint(s, 10, 0)], [s0] being the whole input: a byte
    that is no digit is a syntax error; a digit that makes the number
    overflow 64 bits is a range error, whatever comes after it. *)
Fixpoint parse_digits (s0 s : string) (n : Z) : Z * option NumError :=
  match s with
  | EmptyString => (n, None)
  | String c rest =>
      match digit c with
      | None => (0, Some (syntaxError "ParseUint" s0))
      | Some d =>
          if maxUint64 / 10 + 1 <=? n
          then (maxUint64, Some (rangeError "ParseUint" s0))
          else
            let n1 := n * 10 + d in
            if maxUint64 <? n1
            then (maxUint64, Some (rangeError "ParseUint" s0))
            else parse_digits s0 rest n1
      end
  end.

Definition ParseUint (s : string) : Z * option NumError :=
  match s with
  | EmptyString => (0, Some (syntaxError "ParseUint" s))
  | _ => parse_digits s s 0
  end.

(** [ParseInt(s, 10, 0)]. *)
Definition ParseInt (s : string) : Z * option NumError :=
  match s with
  | EmptyString => (0, Some (syntaxError "ParseInt" s))
  | String s0 rest =>
      let neg := Ascii.eqb s0 "-" in
      let body := if Ascii.eqb s0 "+" || Ascii.eqb s0 "-" then rest else s in
      let r := ParseUint body in
      match r.2 with
      | Some (mkNumError _ _ ErrSyntax) =>
          (0, Some (mkNumError "ParseInt" s ErrSyntax))
      | _ =>
          let un := r.1 in
          let cutoff := 2 ^ 63 in
          if negb neg && (cutoff <=? un)
          then (cutoff - 1, Some (rangeError "ParseInt" s))
          else if neg && (cutoff <? un)
          then (- cutoff, Some (rangeError "ParseInt" s))
          else (if neg then - un else un, None)
      end
  end.

(** [Atoi]: the fast path for an input of 1 to 18 bytes, which cannot
    overflow, and [ParseInt] for the others, its error renamed. *)
Definition Atoi (s : string) : Z + NumError :=
  let sLen := String.length s in
  if ((0 <? sLen) && (sLen <? 19))%nat then
    match s with
    | EmptyString => inr (syntaxError "Atoi" s)
    | String s0 rest =>
        let signed := Ascii.eqb s0 "-" || Ascii.eqb s0 "+" in
        let body := if signed then rest else s in
        match body with
        | EmptyString => inr (syntaxError "Atoi" s)
        | _ =>
            match digits body 0 with
            | None => inr (syntaxError "Atoi" s)
            | Some n => inl (if Ascii.eqb s0 "-" then - n else n)
            end
        end
    end
  else
    let r := ParseInt s in
    match r.2 with
    | Some e => inr (mkNumError "Atoi" (Num e) (Err e))
    | None => inl r.1
    end.

End atoi.

(** An error of [ioutil.ReadFile]: [os.IsNotExist] tells whether it is for
    want of the file. *)
Record ReadError := mkReadError {
  IsNotExist : bool;
  Error : string;
}.

Section CommandPrimitives.
Context {W : Type}.

(** [os.Setenv]: it refuses an empty key, a key with [=] or a NUL in it, and
    a value with a NUL in it; otherwise the variable is set. *)
Definition has_char (c : ascii) (s : string) : bool :=
  existsb (Ascii.eqb c) (list_ascii_of_string s).

Definition Setenv (key value : string) : Prog W (option string) :=
  Act (fun w =>
         if bool_decide (key = EmptyString)
            || has_char "=" key || has_char zero key || has_char zero value
         then (Some "setenv: invalid argument", w)
         else (None, set_env (<[key := value]> (w_env w)) w)) Ret.

(** [ioutil.ReadFile]: the content of the file.  The files of the world are
    all readable: the only error is that there is no such file. *)
Definition ReadFile (filename : string) : Prog W (string + ReadError) :=
  Act (fun w =>
         (match w_files w !! filename with
          | Some data => inl data
          | None =>
              inr (mkReadError
                     true ("open " +:+ filename +:+ ": no such file or directory"))
          end, w)) Ret.

(** [os.FindProcess], on Unix: it always succeeds, whether or not there is
    such a process. *)
Definition FindProcess (pid : Z) : Prog W (Z + string) :=
  Ret (inl pid).

(** [(p *os.Process) Signal]: the signal leaves the world of this process for
    another's.  The commands make this call last and drop its error: the
    program of a command returns the call it made, the identifier of the
    process found and the signal. *)
Definition Signal_to (pid : Z) (sig : Signal) : Prog W (option (Z * Signal)) :=
  Ret (Some (pid, sig)).

(** [fmt.Println] of one string: the string and a newline, to [os.Stdout]. *)
Definition Println (text : string) : Prog W unit :=
  os.WriteString (Some os.Stdout) (text +:+ String (ascii_of_nat 10) EmptyString).
End CommandPrimitives.

Section Commands.
Context `{Worker W}.

(** [cmd.Flags().GetBool("daemon")] is an input of the commands: the value of
    the flag, or the error of the lookup.  [if err != nil { isDaemon = true }]. *)
Definition isDaemon_of (flag : bool + string) : bool :=
  match flag with
  | inl b => b
  | inr _ => true
  end.

(** The [Run] function of the [start] command; [received] are the signals
    that reach this process if it stays to run the workload. *)
Definition start_Run (flag : bool + string) (received : list Signal)
  (worker : Process W) : Prog W unit :=
  let isDaemon := isDaemon_of flag in
  (if negb isDaemon
   then _ <- Setenv (DaemonTag worker) "true" ;; Ret tt
   else Ret tt) ;;
  err <- Run received worker ;;
  match err with
  | Some e =>
      (if bool_decide (e = "resource temporarily unavailable")
       then Println "resource temporarily unavailable" ;; os.Exit 0
       else Ret tt) ;;
      Panic e
  | None => Ret tt
  end.

(** The [Run] function of the [stop] command. *)
Definition stop_Run (worker : Process W) : Prog W (option (Z * Signal)) :=
  filename <- Pid.SaveFilename (Pid worker) ;;
  r <- ReadFile filename ;;
  match r with
  | inr err => if IsNotExist err then Ret None else Panic (Error err)
  | inl data =>
      match atoi.Atoi data with
      | inr err => Panic (atoi.Error err)
      | inl pid =>
          r <- FindProcess pid ;;
          match r with
          | inr err => Panic err
          | inl process => Signal_to process SIGUSR1
          end
      end
  end.

(** The [Run] function of the [restart] command. *)
Definition restart_Run (flag : bool + string) (received : list Signal)
  (worker : Process W) : Prog W (option (Z * Signal)) :=
  filename <- Pid.SaveFilename (Pid worker) ;;
  r <- ReadFile filename ;;
  match r with
  | inr err =>
      if IsNotExist err then
        let isDaemon := isDaemon_of flag in
        (if negb isDaemon
         then _ <- Setenv (DaemonTag worker) "true" ;; Ret tt
         else Ret tt) ;;
        err <- Run received worker ;;
        match err with
        | Some e => Panic e
        | None => Ret None
        end
      else Panic (Error err)
  | inl data =>
      match atoi.Atoi data with
      | inr err => Panic (atoi.Error err)
      | inl pid =>
          r <- FindProcess pid ;;
          match r with
          | inr err => Panic err
          | inl process => Signal_to process SIGUSR2
          end
      end
  end.
End Commands.

(** The environment that the process of a started command finds: each
    [key=value] entry of [cmd.Env] cut at its first [=], the last entry of a
    key being the one kept. *)
Fixpoint cut (kv : string) : option (string * string) :=
  match kv with
  | EmptyString => None
  | String c rest =>
      if Ascii.eqb c "="
      then Some (EmptyString, rest)
      else match cut rest with
           | Some (k, v) => Some (String c k, v)
           | None => None
           end
  end.

Definition env_of (envs : list string) : gmap string string :=
  foldl (fun env kv =>
           match cut kv with
           | Some (k, v) => <[k := v]> env
           | None => env
           end) ∅ envs.

(** ** More vocabulary *)

(** A signal for which [NewProcess] registers a handler. *)
Definition is_default_signal (sig : Signal) : bool :=
  (sig =? Interrupt) || (sig =? SIGUSR1) || (sig =? SIGUSR2).

(** The line [fmt.Println] prints for the error [start] does not panic on. *)
Definition unavailable : string := "resource temporarily unavailable".

Section MoreVocabulary.
Context {W : Type}.

(** The world after the launcher path of [Run]. *)
Definition spawned (process : Process W) (w : World W) : World W :=
  mkWorld (w_host w) (w_env w) (w_files w) (w_open w) (w_worker w)
          (w_trace w ++ spawn_events process (w_host w) (w_env w)).

(** How [start] ends in a launcher: it returns when the child started and was
    released, prints [unavailable] and exits with status 0 on that error, and
    panics on every other error. *)
Definition start_outcome (process : Process W) (w : World W)
  : Result unit * World W :=
  match spawn_result (w_host w) with
  | None => (Ok tt, spawned process w)
  | Some e =>
      if bool_decide (e = unavailable)
      then (Exited 0,
            log (EvWriteString
                   (Some os.Stdout)
                   (unavailable +:+ String (ascii_of_nat 10) EmptyString))
                (spawned process w))
      else (Panicked e, spawned process w)
  end.

(** A program no step of which changes the environment variables. *)
Fixpoint EnvSafe {A} (g : Prog W A) : Prop :=
  match g with
  | Done _ => True
  | Act step k =>
      (forall w, w_env (step w).2 = w_env w) /\ (forall x, EnvSafe (k x))
  end.
End MoreVocabulary.

(** The value of a numeral read digit by digit from [acc]. *)
Fixpoint value (d : Decimal.uint) (acc : Z) : Z :=
  match d with
  | Decimal.Nil => acc
  | Decimal.D0 d => value d (acc * 10 + 0)
  | Decimal.D1 d => value d (acc * 10 + 1)
  | Decimal.D2 d => value d (acc * 10 + 2)
  | Decimal.D3 d => value d (acc * 10 + 3)
  | Decimal.D4 d => value d (acc * 10 + 4)
  | Decimal.D5 d => value d (acc * 10 + 5)
  | Decimal.D6 d => value d (acc * 10 + 6)
  | Decimal.D7 d => value d (acc * 10 + 7)
  | Decimal.D8 d => value d (acc * 10 + 8)
  | Decimal.D9 d => value d (acc * 10 + 9)
  end.

(** ** Worlds of the commands, for the example *)

(** The process of [example http stop], started from the directory of the
    daemon while the child of the example runs; the files are those the
    child's [Save] left. *)
Definition cli_host : Host :=
  mkHost (inl "/srv/app") "/usr/local/bin/example" ["http"; "stop"] 5000
         ∅ None not_found [].
Definition cli_process : Process HTTPServer :=
  mkProcess [Some os.Stdin; Some os.Stdout; Some os.Stderr]
            (Pid.mk "http" "./" 5000 None) EnvName
            (SignalHandlers example_process).
Definition cli_world : World HTTPServer :=
  mkWorld cli_host parent_env (w_files (saved child_world))
          {[os.Stdin; os.Stdout; os.Stderr]} (mkHTTPServer false None []) [].

(** The same process when no child runs, and when the PID file was written
    by hand, a newline after the number. *)
Definition idle_world : World HTTPServer :=
  example_world cli_host parent_env None.
Definition newline_world : World HTTPServer :=
  mkWorld cli_host parent_env
          {["/srv/app/http.pid"
            := "4242" +:+ String (ascii_of_nat 10) EmptyString]}
          {[os.Stdin; os.Stdout; os.Stderr]} (mkHTTPServer false None []) [].

(** A launcher that cannot fork. *)
Definition unavailable_host : Host :=
  mkHost (inl "/srv/app") "/usr/local/bin/example" ["http"; "start"] 4242
         ∅ (Some unavailable) not_found [].
Definition unavailable_world : World HTTPServer :=
  example_world unavailable_host parent_env None.

(** A launcher whose executable is gone. *)
Definition start_fails_world_parent : World HTTPServer :=
  example_world start_fails_host parent_env None.

(** The example process with no daemon tag, and with one of its own. *)
Definition untagged_process : Process HTTPServer :=
  SetDaemonTag "" example_process.
Definition own_tag : string := "HTTP_CHILD".

(** * Theorems *)

(** ** Running programs *)

Section Running.
Context {W : Type}.

Lemma run_bind {A B} (m : Prog W A) (k : A -> Prog W B) (w : World W) :
  run (bind m k) w =
  match run m w with
  | (Ok a, w') => run (k a) w'
  | (Panicked msg, w') => (Panicked msg, w')
  | (Exited code, w') => (Exited code, w')
  | (Blocked, w') => (Blocked, w')
  end.
Proof.
  revert w. induction m as [r | X step k' IH]; intros w; cbn.
  - destruct r; reflexivity.
  - destruct (step w) as [x w']. apply IH.
Qed.

Lemma Command_run (name : string) (arg : list string) (w : World W) :
  run (exec.Command name arg) w
  = (Ok (mkCmd (command_path (w_host w) name) (name :: arg) [] None None
               None), w).
Proof.
  unfold exec.Command, command_path.
  case_bool_decide; [| reflexivity].
  cbn. case_bool_decide; reflexivity.
Qed.

Lemma Abs_run (path : string) (w : World W) :
  run (filepath.Abs path) w
  = (Ok (filepath.absolute (h_getwd (w_host w)) path), w).
Proof.
  unfold filepath.Abs, filepath.absolute.
  destruct (filepath.IsAbs path); [reflexivity |].
  cbn. destruct (h_getwd (w_host w)); reflexivity.
Qed.

Lemma SaveFilename_run (pid : Pid.t) (w : World W) :
  run (Pid.SaveFilename pid) w
  = (match filepath.absolute (h_getwd (w_host w)) (Pid.SavePath pid) with
     | inl dir => Ok (pid_file dir (Pid.ServicesName pid))
     | inr err => Panicked err
     end, w).
Proof.
  unfold Pid.SaveFilename. rewrite run_bind, Abs_run.
  destruct (filepath.absolute _ _); reflexivity.
Qed.
End Running.

(** ** Interleavings, and the frame rule of a thread and its goroutine *)

Section ShuffleFacts.
Context {A : Type}.
Implicit Types l : list A.

Lemma Shuffle_nil_r l : Shuffle l [] l.
Proof. induction l; constructor; assumption. Qed.

Lemma Shuffle_nil_l l : Shuffle [] l l.
Proof. induction l; constructor; assumption. Qed.

Lemma Shuffle_app_left l0 l1 l2 l :
  Shuffle l1 l2 l -> Shuffle (l0 ++ l1) l2 (l0 ++ l).
Proof. intros HM. induction l0; cbn; [assumption | constructor; assumption]. Qed.

Lemma Shuffle_app_right l0 l1 l2 l :
  Shuffle l1 l2 l -> Shuffle l1 (l0 ++ l2) (l0 ++ l).
Proof. intros HM. induction l0; cbn; [assumption | constructor; assumption]. Qed.

Lemma Shuffle_Permutation l1 l2 l : Shuffle l1 l2 l -> l ≡ₚ l1 ++ l2.
Proof.
  induction 1 as [| x l1 l2 l _ IH | x l1 l2 l _ IH]; cbn.
  - reflexivity.
  - by rewrite IH.
  - rewrite IH. apply Permutation_middle.
Qed.

Lemma Shuffle_filter_length (P : A -> bool) l1 l2 l :
  Shuffle l1 l2 l ->
  length (List.filter P l) = (length (List.filter P l1) + length (List.filter P l2))%nat.
Proof.
  induction 1 as [| x l1 l2 l _ IH | x l1 l2 l _ IH]; cbn;
    [reflexivity | |]; destruct (P x); cbn; lia.
Qed.

End ShuffleFacts.

Section Alone.
Context {W : Type}.
Variables R F : relation (World W).
Context `{!Equivalence R, !Equivalence F}.

(** A thread run alone does what [Exec] says. *)
Lemma Exec_run {A} (m : Prog W A) w a w' es v :
  Exec R F m w a w' es -> R v w ->
  exists v', run m v = (Ok a, v') /\ R v' w' /\ F v' v /\
             w_trace v' = (w_trace v ++ es)%list.
Proof.
  revert w es v. induction m as [r | X step k IH]; intros w es v; cbn.
  - intros (-> & HR & ->) Hv. exists v. rewrite app_nil_r.
    repeat split; [| reflexivity]. by rewrite Hv.
  - intros (x & w1 & es1 & es2 & Hstep & Hk & ->) Hv.
    destruct (Hstep v Hv) as (v1 & -> & HR1 & HF1 & Ht1).
    destruct (IH x w1 es2 v1 Hk HR1) as (v2 & -> & HR2 & HF2 & Ht2).
    exists v2. repeat split; [assumption | by rewrite HF2 |].
    by rewrite Ht2, Ht1, app_assoc.
Qed.
End Alone.

Section Frame.
Context {W : Type}.
Variables R F : relation (World W).
Context `{!Equivalence R, !Equivalence F}.

Lemma then_join_frame {A} (m : Prog W A) (g : Prog W unit)
      wm a wm' em wg wg' eg v :
  Exec R F m wm a wm' em -> Exec F R g wg tt wg' eg ->
  R v wm -> F v wg ->
  exists v' tr, then_join m g v = (Ok a, v') /\ R v' wm' /\ F v' wg' /\
                w_trace v' = (w_trace v ++ tr)%list /\ Shuffle em eg tr.
Proof.
  intros Hm Hg HR HF. unfold then_join.
  destruct (Exec_run R F m _ _ _ _ v Hm HR) as (v1 & -> & HR1 & HF1 & Ht1).
  assert (HF1' : F v1 wg) by (by rewrite HF1).
  destruct (Exec_run F R g _ _ _ _ v1 Hg HF1') as (v2 & -> & HF2 & HR2 & Ht2).
  exists v2, (em ++ eg)%list. cbn. repeat split.
  - by rewrite HR2.
  - assumption.
  - by rewrite Ht2, Ht1, app_assoc.
  - rewrite <- (app_nil_r em) at 1. apply Shuffle_app_left, Shuffle_nil_l.
Qed.

(** The frame rule of [par]: a thread that lives in what [R] sees and a
    goroutine that lives in what [F] sees do, under every schedule, what
    each does alone; only the order of their calls depends on the
    schedule. *)
Lemma par_frame {A} sched (m : Prog W A) (g : Prog W unit)
      wm a wm' em wg wg' eg v :
  Exec R F m wm a wm' em -> Exec F R g wg tt wg' eg ->
  R v wm -> F v wg ->
  exists v' tr, par sched m g v = (Ok a, v') /\ R v' wm' /\ F v' wg' /\
                w_trace v' = (w_trace v ++ tr)%list /\ Shuffle em eg tr.
Proof.
  revert m g wm em wg eg v.
  induction sched as [| mine sched IH]; intros m g wm em wg eg v Hm Hg HR HF.
  { cbn. eapply then_join_frame; eassumption. }
  destruct m as [rm | X sm km].
  { cbn [par]. eapply then_join_frame; eassumption. }
  destruct g as [rg | Y sg kg].
  { cbn in Hg. destruct Hg as (-> & HFg & ->). cbn.
    destruct (Exec_run R F _ _ _ _ _ v Hm HR) as (v1 & Hrun & HR1 & HF1 & Ht1).
    cbn in Hrun. rewrite Hrun. exists v1, em. repeat split; try assumption.
    - by rewrite HF1, HF, HFg.
    - apply Shuffle_nil_r. }
  cbn [par]. destruct mine.
  - cbn in Hm. destruct Hm as (x & w1 & es1 & es2 & Hstep & Hk & ->).
    destruct (Hstep v HR) as (v1 & -> & HR1 & HF1 & Ht1).
    assert (HF1' : F v1 wg) by (by rewrite HF1).
    destruct (IH _ _ _ _ _ _ v1 Hk Hg HR1 HF1')
      as (v2 & tr & -> & HR2 & HF2 & Ht2 & HM).
    exists v2, (es1 ++ tr)%list. repeat split; try assumption.
    + by rewrite Ht2, Ht1, app_assoc.
    + by apply Shuffle_app_left.
  - cbn in Hg. destruct Hg as (x & w1 & es1 & es2 & Hstep & Hk & ->).
    destruct (Hstep v HF) as (v1 & -> & HF1 & HR1 & Ht1).
    assert (HR1' : R v1 wm) by (by rewrite HR1).
    destruct (IH _ _ _ _ _ _ v1 Hm Hk HR1' HF1)
      as (v2 & tr & -> & HR2 & HF2 & Ht2 & HM).
    exists v2, (es1 ++ tr)%list. repeat split; try assumption.
    + by rewrite Ht2, Ht1, app_assoc.
    + by apply Shuffle_app_right.
Qed.
End Frame.

(** ** The two threads of the restart handler *)

Section Threads.
Context `{Worker W}.

#[export] Instance same_os_equiv : Equivalence (same_os (W := W)).
Proof.
  split.
  - intros w. repeat split.
  - intros v w (? & ? & ? & ?). repeat split; congruence.
  - intros u v w (? & ? & ? & ?) (? & ? & ? & ?). repeat split; congruence.
Qed.

#[export] Instance same_worker_equiv : Equivalence (same_worker (W := W)).
Proof.
  split.
  - intros w. reflexivity.
  - intros v w Hvw. unfold same_worker in *. congruence.
  - intros u v w ? ?. unfold same_worker in *. congruence.
Qed.

Lemma getenv_delete (env : gmap string string) key :
  os.getenv (delete key env) key = "".
Proof.
  unfold os.getenv. case_bool_decide; [reflexivity |].
  by rewrite lookup_delete_eq.
Qed.

Ltac exec_step w1 :=
  cbn [Exec bind];
  eexists _, w1, _, _; split;
  [ let v := fresh "v" in
    let Hv := fresh "Hv" in
    intros v Hv; eexists; split;
    [ first [ destruct Hv as (Hh & He & Hf & Ho);
              cbn; rewrite ?Hh, ?He, ?Hf, ?Ho; reflexivity
            | unfold same_worker in Hv; cbn; rewrite ?Hv; reflexivity ]
    | repeat split; cbn;
      first [ reflexivity | symmetry; apply app_nil_r
            | apply Hv | congruence | idtac ] ]
  | split; [| reflexivity] ].

(** The launcher's part of the restart handler, between [go] and [<-done]. *)
Lemma restart_main_Exec (listen : Prog W unit) (process : Process W) w :
  let env' := delete (DaemonTag process) (w_env w) in
  Exec same_os same_worker
    (_ <- os.Unsetenv (DaemonTag process) ;;
     err <- Run_with listen process ;;
     match err with
     | Some e => os.WriteString (Pipeline process !!! 1%nat) e
     | None => Ret tt
     end)
    w tt (set_env env' w)
    (EvUnsetenv (DaemonTag process)
       :: spawn_events process (w_host w) env'
       ++ report_events process (spawn_result (w_host w))).
Proof.
  intros env'. set (w1 := set_env env' w).
  exec_step w1.
  unfold Run_with, IsChild.
  exec_step w1.
  cbn [w_env set_env w1]. subst env'. rewrite getenv_delete.
  cbn [bind Ret].
  rewrite bool_decide_eq_false_2 by discriminate.
  exec_step w1.
  unfold exec.Command, spawn_events, spawn_result, child_command,
    command_path.
  cbn [fst snd w_host set_env w1].
  assert (Htail : forall path,
            Exec same_os same_worker
              (environ <- os.Environ ;;
               err <- exec.Start
                        (mkCmd path (h_arg0 (w_host w) :: h_args (w_host w))
                               (environ ++ [DaemonTag process +:+ "=true"])
                               (Pipeline process !!! 0%nat)
                               (Pipeline process !!! 1%nat)
                               (Pipeline process !!! 2%nat)) ;;
               err <- match err with
                      | Some e => Ret (Some e)
                      | None => exec.Release
                      end ;;
               match err with
               | Some e => os.WriteString (Pipeline process !!! 1%nat) e
               | None => Ret tt
               end)
              w1 tt w1
              (EvCmdStart
                 (mkCmd path (h_arg0 (w_host w) :: h_args (w_host w))
                        (os.environ (delete (DaemonTag process) (w_env w))
                           ++ [DaemonTag process +:+ "=true"])
                        (Pipeline process !!! 0%nat)
                        (Pipeline process !!! 1%nat)
                        (Pipeline process !!! 2%nat))
                 (h_start_err (w_host w))
                 :: match h_start_err (w_host w) with
                    | Some _ => []
                    | None => [EvRelease None]
                    end
                 ++ report_events process (h_start_err (w_host w)))).
  { intros path. exec_step w1. exec_step w1.
    cbn [w_host set_env w1 w_env].
    destruct (h_start_err (w_host w)) as [e |].
    - exec_step w1. cbn. repeat split; reflexivity.
    - exec_step w1. cbn. repeat split; reflexivity. }
  cbn [bind Ret fst snd Path Args Env Stdin Stdout Stderr].
  case_bool_decide as Hbase.
  - exec_step w1. cbn [w_host set_env w1 fst bind Ret].
    case_bool_decide as Hlp;
      cbn [bind Ret fst snd Path Args Env Stdin Stdout Stderr]; apply Htail.
  - cbn [bind Ret fst snd Path Args Env Stdin Stdout Stderr]. apply Htail.
Qed.

(** The goroutine of the restart handler. *)
Lemma restart_go_Exec (process : Process W) w :
  Exec same_worker same_os
    (err <- worker_Restart ;;
     match err with
     | Some e => os.WriteString (Pipeline process !!! 1%nat) e
     | None => Ret tt
     end)
    w tt (set_worker (Restart (w_worker w)).2 w)
    (EvWorkerRestart (Restart (w_worker w)).1
       :: report_events process (Restart (w_worker w)).1).
Proof.
  set (w1 := set_worker (Restart (w_worker w)).2 w).
  exec_step w1.
  destruct (Restart (w_worker w)).1 as [e |].
  - exec_step w1. cbn. repeat split; reflexivity.
  - cbn. repeat split; reflexivity.
Qed.
End Threads.

(** ** The methods of the PID record; the restart handler *)

Section PidRuns.
Context `{Worker W}.

Lemma Close_run (f : option Fd) (w : World W) :
  exists err,
    run (os.Close f) w
    = (Ok err,
       mkWorld (w_host w) (w_env w) (w_files w)
               (open_after_close f (w_open w)) (w_worker w)
               (w_trace w ++ [EvClose f])).
Proof.
  destruct f as [fd |]; cbn.
  - case_bool_decide as Hin; cbn; eexists; [reflexivity |].
    do 2 f_equal. unfold log; cbn. f_equal.
    symmetry. apply difference_disjoint_L. set_solver.
  - eexists. reflexivity.
Qed.

Lemma Remove_file_run (name : string) (w : World W) :
  exists err,
    run (os.Remove name) w
    = (Ok err,
       mkWorld (w_host w) (w_env w)
               (files_after_remove (w_host w) name (w_files w))
               (w_open w) (w_worker w) (w_trace w ++ [EvRemove name])).
Proof.
  cbn. unfold files_after_remove.
  destruct (w_files w !! name) as [text |] eqn:Hfile.
  - case_bool_decide; cbn; eexists; reflexivity.
  - eexists. cbn. do 2 f_equal. unfold log; cbn. f_equal.
    case_bool_decide; [reflexivity |]. symmetry. by apply delete_id.
Qed.

Lemma Remove_run (pid : Pid.t) (w : World W) dir :
  filepath.absolute (h_getwd (w_host w)) (Pid.SavePath pid) = inl dir ->
  run (Pid.Remove pid) w
  = (Ok tt, removed (Pid.File pid) (pid_file dir (Pid.ServicesName pid)) w).
Proof.
  intros Hdir. unfold Pid.Remove.
  rewrite run_bind. destruct (Close_run (Pid.File pid) w) as (e1 & ->).
  rewrite run_bind, SaveFilename_run. cbn [w_host]. rewrite Hdir.
  rewrite run_bind.
  destruct (Remove_file_run (pid_file dir (Pid.ServicesName pid))
              (mkWorld (w_host w) (w_env w) (w_files w)
                 (open_after_close (Pid.File pid) (w_open w)) (w_worker w)
                 (w_trace w ++ [EvClose (Pid.File pid)]))) as (e2 & ->).
  cbn. unfold removed. by rewrite <- app_assoc.
Qed.

Lemma Remove_run_panic (pid : Pid.t) (w : World W) err :
  filepath.absolute (h_getwd (w_host w)) (Pid.SavePath pid) = inr err ->
  (run (Pid.Remove pid) w).1 = Panicked err.
Proof.
  intros Hdir. unfold Pid.Remove.
  rewrite run_bind. destruct (Close_run (Pid.File pid) w) as (e1 & ->).
  rewrite run_bind, SaveFilename_run. cbn [w_host]. by rewrite Hdir.
Qed.
End PidRuns.

Section RestartHandler.
Context `{Worker W}.

(** The restart handler, whole. *)
Lemma restartHandle_run (listen : Prog W unit) (process : Process W) w dir :
  filepath.absolute (h_getwd (w_host w)) (Pid.SavePath (Pid process))
    = inl dir ->
  let filename := pid_file dir (Pid.ServicesName (Pid process)) in
  let tag := DaemonTag process in
  let rerr := (Restart (w_worker w)).1 in
  exists w' tr,
    run (restartHandle (Run_with listen process) process) w = (Exited 0, w')
    /\ w_trace w'
       = w_trace w ++ [EvClose (Pid.File (Pid process)); EvRemove filename] ++ tr
    /\ Shuffle (EvUnsetenv tag
                  :: spawn_events process (w_host w) (delete tag (w_env w))
                  ++ report_events process (spawn_result (w_host w)))
               (EvWorkerRestart rerr :: report_events process rerr) tr
    /\ w_host w' = w_host w
    /\ w_env w' = delete tag (w_env w)
    /\ w_files w' = files_after_remove (w_host w) filename (w_files w)
    /\ w_open w' = open_after_close (Pid.File (Pid process)) (w_open w)
    /\ w_worker w' = (Restart (w_worker w)).2.
Proof.
  intros Hdir filename tag rerr. unfold restartHandle.
  rewrite run_bind, (Remove_run _ _ _ Hdir). fold filename.
  set (w1 := removed (Pid.File (Pid process)) filename w).
  rewrite run_bind. unfold Par. cbn [run].
  destruct (par_frame same_os same_worker (h_sched (w_host w1)) _ _
              _ _ _ _ _ _ _ w1
              (restart_main_Exec listen process w1)
              (restart_go_Exec process w1))
    as (v & tr & -> & (Hh & He & Hf & Ho) & Hw & Ht & HS);
    [reflexivity | reflexivity |].
  exists v, tr. cbn in *.
  repeat split; try assumption.
  by rewrite Ht, <- app_assoc.
Qed.
End RestartHandler.

(** ** The stop handler, [Run] and [Save] *)

Section StopRunSave.
Context `{Worker W}.

(** The stop handler, whole. *)
Lemma stopHandle_run (process : Process W) w dir :
  filepath.absolute (h_getwd (w_host w)) (Pid.SavePath (Pid process))
    = inl dir ->
  let filename := pid_file dir (Pid.ServicesName (Pid process)) in
  let err := (Stop (w_worker w)).1 in
  run (stopHandle process) w
  = (Exited 0,
     mkWorld (w_host w) (w_env w)
             (files_after_remove (w_host w) filename (w_files w))
             (open_after_close (Pid.File (Pid process)) (w_open w))
             (Stop (w_worker w)).2
             (w_trace w ++ EvWorkerStop err :: report_events process err
                ++ [EvClose (Pid.File (Pid process)); EvRemove filename])).
Proof.
  intros Hdir filename err. unfold stopHandle.
  rewrite run_bind. cbn [run worker_Stop Ret]. fold err.
  rewrite run_bind.
  destruct err as [e |]; cbn [run os.WriteString Ret report_events];
    rewrite run_bind;
    (erewrite Remove_run by (cbn [w_host log set_worker]; exact Hdir));
    cbn; unfold removed; cbn; fold filename;
    do 2 f_equal; rewrite <- ?app_assoc; reflexivity.
Qed.

(** The launcher path of [Run]. *)
Lemma Run_with_parent (listen : Prog W unit) (process : Process W) w :
  os.getenv (w_env w) (DaemonTag process) <> "true" ->
  run (Run_with listen process) w
  = (Ok (spawn_result (w_host w)),
     mkWorld (w_host w) (w_env w) (w_files w) (w_open w) (w_worker w)
             (w_trace w ++ spawn_events process (w_host w) (w_env w))).
Proof.
  intros Htag. unfold Run_with, IsChild. cbn [run bind os.Getenv Ret].
  rewrite bool_decide_eq_false_2 by exact Htag.
  rewrite run_bind. cbn [os.Args run Ret fst snd].
  rewrite run_bind, Command_run.
  cbn. unfold spawn_result, spawn_events, child_command.
  destruct (h_start_err (w_host w)) as [e |]; cbn; [reflexivity |].
  unfold log; cbn. by rewrite <- app_assoc.
Qed.

(** [Save]: it panics when the path does not resolve, returns the error of
    [write] when the file cannot be opened, and otherwise leaves the text
    of the identifier in the file, which stays open. *)
Lemma Save_run (pid : Pid.t) (w : World W) :
  run (Pid.Save pid) w
  = match filepath.absolute (h_getwd (w_host w)) (Pid.SavePath pid) with
    | inr err => (Panicked err, w)
    | inl dir =>
        let filename := pid_file dir (Pid.ServicesName pid) in
        if bool_decide (filename ∈ h_denied (w_host w))
        then (Ok (Some ("open " +:+ filename +:+ ": permission denied")), w)
        else
          let fd := fresh (w_open w) in
          (Ok None,
           mkWorld (w_host w) (w_env w)
                   (<[filename := strconv.Itoa (Pid.Pid pid)]> (w_files w))
                   ({[fd]} ∪ w_open w) (w_worker w)
                   (w_trace w
                      ++ [EvOpenWrite filename (strconv.Itoa (Pid.Pid pid)) fd]))
    end.
Proof.
  unfold Pid.Save. rewrite run_bind, SaveFilename_run.
  destruct (filepath.absolute _ _) as [dir | err]; [| reflexivity].
  cbn. case_bool_decide; reflexivity.
Qed.

(** The child path of [Run], up to the dispatch loop. *)
Lemma Run_with_child (listen : Prog W unit) (process : Process W) w :
  os.getenv (w_env w) (DaemonTag process) = "true" ->
  run (Run_with listen process) w
  = match run (Pid.Save (Pid process)) w with
    | (Ok (Some e), w1) => (Ok (Some e), w1)
    | (Ok None, w1) =>
        run (listen ;; Ret None)
            (log EvWorkerStart (set_worker (Start (w_worker w1)) w1))
    | (Panicked msg, w1) => (Panicked msg, w1)
    | (Exited code, w1) => (Exited code, w1)
    | (Blocked, w1) => (Blocked, w1)
    end.
Proof.
  intros Htag. unfold Run_with, IsChild. cbn [run bind os.Getenv Ret].
  rewrite bool_decide_eq_true_2 by exact Htag.
  rewrite run_bind.
  destruct (run (Pid.Save (Pid process)) w) as [[[e |] | | |] w1];
    reflexivity.
Qed.
End StopRunSave.

(** ** The construction of a process *)

Section Construction.
Context `{Worker W}.

(** [On]: the handler registered last for a signal is the one found, and
    the handlers of the other signals stay. *)
Lemma On_lookup (process : Process W) sig fn :
  SignalHandlers (On sig fn process) !! sig = Some fn.
Proof. apply lookup_insert_eq. Qed.

Lemma On_lookup_other (process : Process W) sig sig' fn :
  sig <> sig' ->
  SignalHandlers (On sig fn process) !! sig'
  = SignalHandlers process !! sig'.
Proof. intros Hne. by apply lookup_insert_ne. Qed.

(** [NewProcess] changes nothing in the world; the process it returns has
    the standard streams, the workload's name and save path, the current
    process identifier, no file, the default tag, and the three default
    handlers under their three signals. *)
Lemma NewProcess_run (w : World W) :
  exists process,
    run NewProcess w = (Ok process, w)
    /\ Pipeline process = [Some os.Stdin; Some os.Stdout; Some os.Stderr]
    /\ Pid process
       = Pid.mk (Name (w_worker w)) (PidSavePath (w_worker w))
                (h_getpid (w_host w)) None
    /\ DaemonTag process = EnvName
    /\ SignalHandlers process !! Interrupt = Some DefaultInterruptHandle
    /\ SignalHandlers process !! SIGUSR1 = Some DefaultStopHandle
    /\ SignalHandlers process !! SIGUSR2 = Some DefaultRestartHandle.
Proof.
  eexists. split; [reflexivity |]. cbn.
  repeat split.
Qed.
End Construction.

Example NewProcess_example :
  run NewProcess launcher_world = (Ok example_process, launcher_world).
Proof. vm_compute. reflexivity. Qed.

Example SetPipeline_example :
  Pipeline (SetPipeline [None; Some 7%nat; Some 8%nat; Some 9%nat]
                        example_process)
  = [None; Some 7%nat; Some 8%nat].
Proof. reflexivity. Qed.

Example Run_launcher_example :
  (run (Run [] example_process) launcher_world).1 = Ok None.
Proof. vm_compute. reflexivity. Qed.

(** The restart handler under two schedules: the calls are the same, their
    order is the scheduler's. *)
Example restart_schedules_example :
  let host sched :=
    mkHost (inl "/srv/app") "/usr/local/bin/example" ["http"; "start"] 4242
           ∅ None not_found sched in
  let calls sched :=
    drop 2 (w_trace (run (Run [SIGUSR2] example_process)
                         (example_world (host sched) child_env None)).2) in
  let spawn :=
    EvCmdStart (mkCmd "/usr/local/bin/example"
                      ["/usr/local/bin/example"; "http"; "start"]
                      ["PATH=/usr/bin"; "DAEMON=true"]
                      (Some os.Stdin) (Some os.Stdout) (Some os.Stderr))
               None in
  calls []
  = [EvClose None; EvRemove "/srv/app/http.pid"; EvUnsetenv "DAEMON";
     spawn; EvRelease None; EvWorkerRestart None]
  /\ calls [false]
     = [EvClose None; EvRemove "/srv/app/http.pid"; EvWorkerRestart None;
        EvUnsetenv "DAEMON"; spawn; EvRelease None]
  /\ calls [true; true; true; true; true; false]
     = [EvClose None; EvRemove "/srv/app/http.pid"; EvUnsetenv "DAEMON";
        spawn; EvWorkerRestart None; EvRelease None].
Proof. repeat split; vm_compute; reflexivity. Qed.

Example Run_child_example :
  (run (Run [SIGTERM] example_process) child_world).1 = Blocked.
Proof. vm_compute. reflexivity. Qed.

Example Clean_examples :
  filepath.Clean "./" = "."
  /\ filepath.Clean "/srv//app/./run/../" = "/srv/app"
  /\ filepath.Clean "../x/.." = ".."
  /\ filepath.Join "/srv/app" "./" = "/srv/app".
Proof. repeat split; reflexivity. Qed.

Example Itoa_examples :
  strconv.Itoa 4242 = "4242" /\ strconv.Itoa 0 = "0"
  /\ strconv.Itoa (-17) = "-17".
Proof. repeat split; reflexivity. Qed.

(** ** A signal reaches the child *)

Section Signals.
Context `{Worker W}.

Lemma count_Shuffle (P : Event -> bool) l1 l2 l :
  Shuffle l1 l2 l -> count P l = (count P l1 + count P l2)%nat.
Proof. apply Shuffle_filter_length. Qed.

Lemma count_report (P : Event -> bool) (process : Process W) err :
  (forall f text, P (EvWriteString f text) = false) ->
  count P (report_events process err) = 0%nat.
Proof. intros HP. destruct err; cbn; [by rewrite HP | reflexivity]. Qed.


Lemma count_app (P : Event -> bool) l1 l2 :
  count P (l1 ++ l2) = (count P l1 + count P l2)%nat.
Proof. unfold count. by rewrite List.filter_app, length_app. Qed.

(** The dispatch loop: a signal without a handler is dropped, a signal with
    a handler has it called. *)
Lemma Listen_dropped (process : Process W) pre received :
  Forall (fun sig => SignalHandlers process !! sig = None) pre ->
  Listen (pre ++ received) process = Listen received process.
Proof.
  induction 1 as [| sig pre Hsig _ IH]; [reflexivity |].
  cbn. by rewrite Hsig.
Qed.

Lemma Listen_registered (process : Process W) sig rest handler :
  SignalHandlers process !! sig = Some handler ->
  Listen (sig :: rest) process
  = (invoke (Listen rest process) handler process ;; Listen rest process).
Proof. intros Hreg. cbn. by rewrite Hreg. Qed.

(** What a successful [Save] tells. *)
Lemma Save_ok_inv (pid : Pid.t) (w w1 : World W) :
  run (Pid.Save pid) w = (Ok None, w1) ->
  exists dir,
    filepath.absolute (h_getwd (w_host w)) (Pid.SavePath pid) = inl dir
    /\ (pid_file dir (Pid.ServicesName pid) ∉ h_denied (w_host w))
    /\ w1 = mkWorld (w_host w) (w_env w)
              (<[pid_file dir (Pid.ServicesName pid)
                 := strconv.Itoa (Pid.Pid pid)]> (w_files w))
              ({[fresh (w_open w)]} ∪ w_open w) (w_worker w)
              (w_trace w
                 ++ [EvOpenWrite (pid_file dir (Pid.ServicesName pid))
                       (strconv.Itoa (Pid.Pid pid)) (fresh (w_open w))]).
Proof.
  rewrite Save_run.
  destruct (filepath.absolute _ _) as [dir | err]; [| discriminate].
  cbn zeta. case_bool_decide as Hden; [discriminate |].
  intros [= <-]. exists dir. repeat split. exact Hden.
Qed.

(** A child that has saved its PID record delivers the first signal it has
    a handler for to that handler, in the world [listening w1]. *)
Lemma Run_child_signal (process : Process W) pre sig rest handler w w1 :
  SignalHandlers process !! sig = Some handler ->
  Forall (fun sig => SignalHandlers process !! sig = None) pre ->
  os.getenv (w_env w) (DaemonTag process) = "true" ->
  run (Pid.Save (Pid process)) w = (Ok None, w1) ->
  run (Run (pre ++ sig :: rest) process) w
  = match run (invoke (Listen rest process) handler process) (listening w1) with
    | (Ok _, w2) => run (Listen rest process ;; Ret None) w2
    | (Panicked msg, w2) => (Panicked msg, w2)
    | (Exited code, w2) => (Exited code, w2)
    | (Blocked, w2) => (Blocked, w2)
    end.
Proof.
  intros Hreg Hpre Htag Hsave. unfold Run.
  rewrite (Run_with_child _ _ _ Htag), Hsave.
  rewrite (Listen_dropped _ _ _ Hpre), (Listen_registered _ _ _ _ Hreg).
  fold (listening w1). rewrite !run_bind.
  destruct (run (invoke _ _ _) _) as [[[] | | |] w2]; try reflexivity.
  by rewrite run_bind.
Qed.


(** C10.  In a child that has saved its PID record, when the restart signal
    reaches the default handler and the re-entered [Run] cannot start the
    replacement child, the error of the spawn is written to [Pipeline[1]]
    and nothing else comes of it: [Restart] still runs to its end, once, and
    the process still exits with status 0, no child having been started. *)
Theorem restart_signal_spawn_failure (process : Process W)
  (pre rest : list Signal) (w w1 : World W) (e : string) :
  SignalHandlers process !! SIGUSR2 = Some DefaultRestartHandle ->
  Forall (fun sig => SignalHandlers process !! sig = None) pre ->
  os.getenv (w_env w) (DaemonTag process) = "true" ->
  run (Pid.Save (Pid process)) w = (Ok None, w1) ->
  h_start_err (w_host w) = Some e ->
  let w0 := listening w1 in
  let tag := DaemonTag process in
  let rerr := (Restart (w_worker w0)).1 in
  exists filename w' tr,
    run (Pid.SaveFilename (Pid process)) w = (Ok filename, w)
    /\ run (Run (pre ++ SIGUSR2 :: rest) process) w = (Exited 0, w')
    /\ w_trace w'
       = w_trace w0
           ++ [EvClose (Pid.File (Pid process)); EvRemove filename] ++ tr
    /\ Shuffle [EvUnsetenv tag;
                EvCmdStart
                  (child_command process (w_host w) (delete tag (w_env w)))
                  (Some e);
                EvWriteString (Pipeline process !!! 1%nat) e]
               (EvWorkerRestart rerr :: report_events process rerr) tr
    /\ count is_started tr = 0%nat
    /\ count is_restart tr = 1%nat
    /\ w_worker w' = (Restart (w_worker w0)).2.
Proof.
  intros Hreg Hpre Htag Hsave Hstart w0 tag rerr.
  rewrite (Run_child_signal _ _ _ _ _ _ _ Hreg Hpre Htag Hsave).
  destruct (Save_ok_inv _ _ _ Hsave) as (dir & Hdir & Hden & ->).
  cbn [invoke].
  destruct (restartHandle_run (Listen rest process) process w0 dir Hdir)
    as (w' & tr & Hrun & Htr & HS & _ & _ & _ & _ & Hwk).
  exists (pid_file dir (Pid.ServicesName (Pid process))), w', tr.
  rewrite SaveFilename_run, Hdir. fold w0. rewrite Hrun.
  cbn [w_host w_env w_files listening log set_worker w0] in HS.
  unfold spawn_events, spawn_result in HS. rewrite Hstart in HS.
  cbn [app report_events] in HS.
  split; [reflexivity |]. split; [reflexivity |]. split; [exact Htr |].
  split; [exact HS |].
  rewrite !(count_Shuffle _ _ _ _ HS).
  change (EvWorkerRestart ?x :: ?l) with ([EvWorkerRestart x] ++ l).
  rewrite !count_app, !count_report by reflexivity.
  repeat split; exact Hwk.
Qed.

End Signals.

(** ** The launcher, and the PID record *)

Section LauncherAndRecord.
Context `{Worker W}.

(** C3.  The handler that [registerDefaultInterruptHandle] registers for
    the interrupt signal and the one that [registerDefaultStopHandle]
    registers for the stop signal do the same: called for the same process
    in the same world, they end the same way and leave the same world, calls
    made included. *)
Theorem interrupt_stop_identical (p0 process : Process W)
  (listen : Prog W unit) (w : World W) :
  SignalHandlers (registerDefaultInterruptHandle p0) !! Interrupt
    = Some DefaultInterruptHandle
  /\ SignalHandlers (registerDefaultStopHandle p0) !! SIGUSR1
     = Some DefaultStopHandle
  /\ run (invoke listen DefaultInterruptHandle process) w
     = run (invoke listen DefaultStopHandle process) w.
Proof.
  split; [apply lookup_insert_eq |]. split; [apply lookup_insert_eq |].
  reflexivity.
Qed.

(** C4.  In the child, when [Save] does not succeed, [Run] ends as [Save]
    did, in the world [Save] left, and has done nothing more: if [Save]
    returns an error, [Run] returns that error (and if [Save] panics, so
    does [Run]); the workload is as it was, and [Start] has not been
    launched. *)
Theorem Run_child_save_failure (process : Process W)
  (received : list Signal) (w w1 : World W) (r : Result (option string)) :
  os.getenv (w_env w) (DaemonTag process) = "true" ->
  run (Pid.Save (Pid process)) w = (r, w1) ->
  r <> Ok None ->
  run (Run received process) w = (r, w1)
  /\ w_worker w1 = w_worker w
  /\ count is_worker_start (w_trace w1) = count is_worker_start (w_trace w).
Proof.
  intros Htag Hsave Hr. unfold Run.
  rewrite (Run_with_child _ _ _ Htag), Hsave.
  split; [by destruct r as [[e |] | | |] |].
  rewrite Save_run in Hsave.
  destruct (filepath.absolute _ _) as [dir | err].
  - cbn zeta in Hsave. case_bool_decide.
    + injection Hsave as _ <-. split; reflexivity.
    + injection Hsave as <- _. done.
  - injection Hsave as _ <-. split; reflexivity.
Qed.

(** C5.  In the launcher, [Run] starts one command, built from the current
    invocation.  Its arguments are [os.Args].  Its path is the one
    [exec.Command] gives for [os.Args[0]]: [os.Args[0]] itself when it names
    the executable with a directory, and the executable of that name found
    in [PATH] when it is a bare name (the name itself when none is
    found).  Its environment is the whole environment
    followed by the daemon tag set to [true], and its streams are the three
    configured ones.  [Run] does not panic; it returns an error exactly
    when the start of the child fails, and then the error of the start. *)
Theorem Run_launcher (process : Process W) (received : list Signal)
  (w : World W) :
  os.getenv (w_env w) (DaemonTag process) <> "true" ->
  let host := w_host w in
  let found := (h_lookpath host (h_arg0 host)).1 in
  let cmd :=
    mkCmd (command_path host (h_arg0 host)) (h_arg0 host :: h_args host)
          (os.environ (w_env w) ++ [DaemonTag process +:+ "=true"])
          (Pipeline process !!! 0%nat) (Pipeline process !!! 1%nat)
          (Pipeline process !!! 2%nat) in
  exists err w',
    run (Run received process) w = (Ok err, w')
    /\ w_trace w'
       = w_trace w
           ++ EvCmdStart cmd (h_start_err host)
           :: match h_start_err host with
              | Some _ => []
              | None => [EvRelease None]
              end
    /\ count is_spawn (drop (length (w_trace w)) (w_trace w')) = 1%nat
    /\ err = h_start_err host
    /\ (err <> None <-> h_start_err host <> None)
    /\ (filepath.Base (h_arg0 host) <> h_arg0 host ->
        Path cmd = h_arg0 host)
    /\ (filepath.Base (h_arg0 host) = h_arg0 host -> found <> "" ->
        Path cmd = found)
    /\ (filepath.Base (h_arg0 host) = h_arg0 host -> found = "" ->
        Path cmd = h_arg0 host).
Proof.
  intros Htag host found cmd. unfold Run.
  rewrite (Run_with_parent _ _ _ Htag).
  eexists _, _. split; [reflexivity |]. cbn [w_trace].
  split; [reflexivity |].
  split; [rewrite drop_app_length; unfold spawn_events;
          by destruct (h_start_err _) |].
  split; [unfold spawn_result; fold host; by destruct (h_start_err host) |].
  split; [unfold spawn_result; fold host; by destruct (h_start_err host) |].
  cbn [Path cmd]. unfold command_path. fold found.
  split; [intros Hbase; by rewrite bool_decide_eq_false_2 |].
  split; intros Hbase Hfound; rewrite bool_decide_eq_true_2 by exact Hbase.
  - by rewrite bool_decide_eq_true_2.
  - rewrite bool_decide_eq_false_2; [reflexivity | by intros []].
Qed.

(** C6, amended.  [SaveFilename] looks at the service name and at the save
    directory of the record, not at its other fields, and at the working
    directory of the process when the save directory is relative.  When
    the absolute form of the save directory resolves (the directory
    cleaned if it is absolute, else joined to the working directory), the
    call returns [<absolute form>/<name>.pid] and changes nothing, so that
    calling it again gives the same string. *)
Theorem SaveFilename_function (N D : string) (p p' : Z) (f f' : option Fd)
  (w : World W) (dir : string) :
  filepath.absolute (h_getwd (w_host w)) D = inl dir ->
  run (Pid.SaveFilename (Pid.mk N D p f)) w = (Ok (pid_file dir N), w)
  /\ run (Pid.SaveFilename (Pid.mk N D p' f')) w = (Ok (pid_file dir N), w)
  /\ run (a <- Pid.SaveFilename (Pid.mk N D p f) ;;
          b <- Pid.SaveFilename (Pid.mk N D p f) ;;
          Ret (a, b)) w
     = (Ok (pid_file dir N, pid_file dir N), w)
  /\ (if filepath.IsAbs D then dir = filepath.Clean D
      else exists wd, h_getwd (w_host w) = inl wd
                      /\ dir = filepath.Join wd D).
Proof.
  intros Hdir.
  assert (Hrun : forall q g,
             run (Pid.SaveFilename (Pid.mk N D q g)) w
             = (Ok (pid_file dir N), w)).
  { intros q g. rewrite SaveFilename_run. cbn [Pid.SavePath Pid.ServicesName].
    by rewrite Hdir. }
  split; [apply Hrun |]. split; [apply Hrun |].
  split; [by rewrite run_bind, Hrun, run_bind, Hrun |].
  unfold filepath.absolute in Hdir.
  destruct (filepath.IsAbs D); [congruence |].
  destruct (h_getwd (w_host w)) as [wd | err]; [| discriminate].
  exists wd. split; congruence.
Qed.





(** C9, amended.  [Remove] returns nothing, hence no error.  When the path
    of the PID file resolves, [Remove] does not panic, whether or not the
    record holds a file and whether or not the PID file exists; after it
    the PID file is gone unless the process may not unlink it; and a second
    [Remove] changes neither the files nor the open descriptors. *)
Theorem Remove_idempotent (pid : Pid.t) (w : World W) (dir : string) :
  filepath.absolute (h_getwd (w_host w)) (Pid.SavePath pid) = inl dir ->
  let filename := pid_file dir (Pid.ServicesName pid) in
  exists w1 w2,
    run (Pid.Remove pid) w = (Ok tt, w1)
    /\ run (Pid.Remove pid) w1 = (Ok tt, w2)
    /\ w_files w1 !! filename
       = (if bool_decide (filename ∈ h_denied (w_host w))
          then w_files w !! filename else None)
    /\ w_files w2 = w_files w1
    /\ w_open w2 = w_open w1.
Proof.
  intros Hdir filename.
  rewrite (Remove_run pid w dir Hdir). fold filename.
  eexists _, _. split; [reflexivity |].
  rewrite (Remove_run pid _ dir) by exact Hdir. fold filename.
  split; [reflexivity |]. cbn. unfold files_after_remove.
  split; [case_bool_decide; [reflexivity | apply lookup_delete_eq] |].
  split.
  - case_bool_decide; [reflexivity |]. apply delete_id, lookup_delete_eq.
  - unfold open_after_close. destruct (Pid.File pid); [| reflexivity].
    apply difference_disjoint_L, disjoint_singleton_r.
    apply not_elem_of_difference. right. by apply elem_of_singleton.
Qed.
End LauncherAndRecord.

(** ** The example, evaluated *)


Lemma restart_signal_spawn_failure_witness :
  SignalHandlers example_process !! SIGUSR2 = Some DefaultRestartHandle
  /\ Forall (fun sig => SignalHandlers example_process !! sig = None) []
  /\ os.getenv (w_env start_fails_world) (DaemonTag example_process) = "true"
  /\ run (Pid.Save (Pid example_process)) start_fails_world
     = (Ok None, saved start_fails_world)
  /\ h_start_err (w_host start_fails_world)
     = Some "fork/exec /usr/local/bin/example: no such file or directory"
  /\ exists w' tr,
       run (Run [SIGUSR2] example_process) start_fails_world = (Exited 0, w')
       /\ count is_started tr = 0%nat
       /\ count is_restart tr = 1%nat.
Proof.
  assert (Hreg : SignalHandlers example_process !! SIGUSR2
                 = Some DefaultRestartHandle) by (vm_compute; reflexivity).
  assert (Htag : os.getenv (w_env start_fails_world) (DaemonTag example_process)
                 = "true") by (vm_compute; reflexivity).
  assert (Hsave : run (Pid.Save (Pid example_process)) start_fails_world
                  = (Ok None, saved start_fails_world))
    by (vm_compute; reflexivity).
  split; [exact Hreg |]. split; [constructor |]. split; [exact Htag |].
  split; [exact Hsave |]. split; [reflexivity |].
  destruct (restart_signal_spawn_failure example_process [] []
              start_fails_world (saved start_fails_world)
              "fork/exec /usr/local/bin/example: no such file or directory"
              Hreg (Forall_nil_2 _) Htag Hsave eq_refl)
    as (filename & w' & tr & _ & Hrun & _ & _ & Hstarted & Hrestart & _).
  exists w', tr. split; [exact Hrun |]. split; [exact Hstarted | exact Hrestart].
Defined.


Lemma Run_child_save_failure_witness :
  os.getenv (w_env denied_child_world) (DaemonTag example_process) = "true"
  /\ run (Pid.Save (Pid example_process)) denied_child_world
     = (Ok (Some "open /srv/app/http.pid: permission denied"),
        denied_child_world)
  /\ Ok (Some "open /srv/app/http.pid: permission denied")
       <> @Ok (option string) None
  /\ run (Run [SIGUSR1] example_process) denied_child_world
     = (Ok (Some "open /srv/app/http.pid: permission denied"),
        denied_child_world).
Proof.
  split; [vm_compute; reflexivity |]. split; [vm_compute; reflexivity |].
  split; [discriminate |].
  apply (Run_child_save_failure example_process [SIGUSR1] denied_child_world
           denied_child_world
           (Ok (Some "open /srv/app/http.pid: permission denied")));
    [vm_compute; reflexivity | vm_compute; reflexivity | discriminate].
Defined.

Lemma Run_launcher_witness :
  os.getenv (w_env bare_launcher_world) (DaemonTag example_process) <> "true"
  /\ os.getenv (w_env launcher_world) (DaemonTag example_process) <> "true"
  /\ (exists err w',
        run (Run [] example_process) bare_launcher_world = (Ok err, w')
        /\ w_trace w'
           = [EvCmdStart
                (mkCmd "/usr/local/bin/example" ["example"; "http"; "start"]
                       ["PATH=/usr/bin"; "DAEMON=true"]
                       (Some os.Stdin) (Some os.Stdout) (Some os.Stderr))
                None;
              EvRelease None]
        /\ err = None)
  /\ (exists err w',
        run (Run [] example_process) launcher_world = (Ok err, w')
        /\ w_trace w'
           = [EvCmdStart
                (mkCmd "/usr/local/bin/example"
                       ["/usr/local/bin/example"; "http"; "start"]
                       ["PATH=/usr/bin"; "DAEMON=true"]
                       (Some os.Stdin) (Some os.Stdout) (Some os.Stderr))
                None;
              EvRelease None]
        /\ err = None).
Proof.
  assert (Htag : forall h,
            os.getenv (w_env (example_world h parent_env None))
                      (DaemonTag example_process) <> "true")
    by (intros h; vm_compute; discriminate).
  split; [apply Htag |]. split; [apply Htag |]. split.
  - destruct (Run_launcher example_process [] bare_launcher_world (Htag _))
      as (err & w' & Hrun & Htr & _ & Herr & _).
    exists err, w'. split; [exact Hrun |]. split; [exact Htr | exact Herr].
  - destruct (Run_launcher example_process [] launcher_world (Htag _))
      as (err & w' & Hrun & Htr & _ & Herr & _).
    exists err, w'. split; [exact Hrun |]. split; [exact Htr | exact Herr].
Defined.

Lemma SaveFilename_function_witness :
  filepath.absolute (h_getwd (w_host child_world)) "./" = inl "/srv/app"
  /\ run (Pid.SaveFilename (Pid.mk "http" "./" 4242 None)) child_world
     = (Ok "/srv/app/http.pid", child_world)
  /\ run (Pid.SaveFilename (Pid.mk "http" "./" 1 (Some 7%nat))) child_world
     = (Ok "/srv/app/http.pid", child_world).
Proof.
  split; [vm_compute; reflexivity |].
  destruct (SaveFilename_function "http" "./" 4242 1 None (Some 7%nat)
              child_world "/srv/app") as (H1 & H2 & _);
    [vm_compute; reflexivity |].
  split; [exact H1 | exact H2].
Defined.

(** C6, as stated, fails: for the same name and save directory the path
    changes with the working directory, and there is none when the working
    directory cannot be found: [SaveFilename] panics. *)
Lemma SaveFilename_depends_on_cwd :
  (run (Pid.SaveFilename (Pid.mk "http" "./" 4242 None)) child_world).1
    = Ok "/srv/app/http.pid"
  /\ (run (Pid.SaveFilename (Pid.mk "http" "./" 4242 None)) other_child_world).1
     = Ok "/tmp/http.pid"
  /\ (run (Pid.SaveFilename (Pid.mk "http" "./" 4242 None)) lost_child_world).1
     = Panicked "getwd: no such file or directory".
Proof. repeat split; vm_compute; reflexivity. Qed.


(** C8: the code at the failing input.  [Save] on the record of the example
    process opens descriptor 3 and returns no error.  Its receiver being a
    value, the record still has no file: [Remove] on that record closes the
    nil file, and descriptor 3 stays open.  The same is seen in the child as a
    whole: the PID file is saved, the stop signal arrives, the handler's
    [Remove] closes nothing, and the process exits with descriptor 3 open. *)
Theorem Save_does_not_retain_handle :
  let pid := Pid example_process in
  let saved := run (Pid.Save pid) child_world in
  let removed := run (Pid.Remove pid) saved.2 in
  let stopped := run (Run [SIGUSR1] example_process) child_world in
  saved.1 = Ok None
  /\ w_open saved.2 = {[os.Stdin; os.Stdout; os.Stderr; 3%nat]}
  /\ Pid.File pid = None
  /\ removed.1 = Ok tt
  /\ w_trace removed.2
     = [EvOpenWrite "/srv/app/http.pid" "4242" 3%nat;
        EvClose None; EvRemove "/srv/app/http.pid"]
  /\ w_open removed.2 = {[os.Stdin; os.Stdout; os.Stderr; 3%nat]}
  /\ stopped.1 = Exited 0
  /\ w_trace stopped.2
     = [EvOpenWrite "/srv/app/http.pid" "4242" 3%nat; EvWorkerStart;
        EvWorkerStop None; EvClose None; EvRemove "/srv/app/http.pid"]
  /\ w_open stopped.2 = {[os.Stdin; os.Stdout; os.Stderr; 3%nat]}.
Proof. repeat split; vm_compute; reflexivity. Qed.

Lemma Remove_idempotent_witness :
  filepath.absolute (h_getwd (w_host child_world))
                    (Pid.SavePath (Pid example_process)) = inl "/srv/app"
  /\ exists w1 w2,
       run (Pid.Remove (Pid example_process)) child_world = (Ok tt, w1)
       /\ run (Pid.Remove (Pid example_process)) w1 = (Ok tt, w2)
       /\ w_files w1 !! "/srv/app/http.pid" = None.
Proof.
  split; [vm_compute; reflexivity |].
  destruct (Remove_idempotent (Pid example_process) child_world "/srv/app")
    as (w1 & w2 & H1 & H2 & H3 & _); [vm_compute; reflexivity |].
  exists w1, w2. split; [exact H1 |]. split; [exact H2 | exact H3].
Defined.

(** C9, as stated, fails: [Remove] panics when the working directory cannot
    be found, and the PID file stays when it may not be unlinked. *)
Lemma Remove_panics_or_leaves_file :
  (run (Pid.Remove (Pid example_process)) lost_child_world).1
    = Panicked "getwd: no such file or directory"
  /\ w_files (run (Pid.Remove (Pid example_process)) stuck_file_world).2
       !! "/srv/app/http.pid" = Some "4242".
Proof. split; vm_compute; reflexivity. Qed.

(** * More of the package *)

(** ** The re-entered [Run] of the restart handler never listens *)

Section Reentry.
Context `{Worker W}.

Lemma run_Run_with_launcher {A} (l1 l2 : Prog W unit) (process : Process W)
  (K : option string -> Prog W A) (w : World W) :
  os.getenv (w_env w) (DaemonTag process) <> "true" ->
  run (bind (Run_with l1 process) K) w = run (bind (Run_with l2 process) K) w.
Proof.
  intros Htag. by rewrite !run_bind, !(Run_with_parent _ _ _ Htag).
Qed.

(** Beside a goroutine that leaves the environment alone, a [Run] that
    starts unmarked does the same whatever its dispatch loop would be. *)
Lemma par_Run_with_launcher {A} (l1 l2 : Prog W unit) (process : Process W)
  (K : option string -> Prog W A) sched (g : Prog W unit) (w : World W) :
  EnvSafe g ->
  os.getenv (w_env w) (DaemonTag process) <> "true" ->
  par sched (bind (Run_with l1 process) K) g w
  = par sched (bind (Run_with l2 process) K) g w.
Proof.
  revert g w. induction sched as [| mine sched IH]; intros g w Hg Htag.
  { cbn [par]. unfold then_join.
    by rewrite (run_Run_with_launcher l1 l2 process K w Htag). }
  pose proof (run_Run_with_launcher l1 l2 process K w Htag) as Hrun.
  destruct g as [[] | Y sg kg]; try exact Hrun; try reflexivity.
  destruct mine.
  - cbn. rewrite !bool_decide_eq_false_2 by exact Htag. reflexivity.
  - destruct Hg as [Henv Hk].
    unfold Run_with, IsChild, os.Getenv. cbn [bind par].
    destruct (sg w) as [y w'] eqn:Hstep.
    specialize (Henv w). rewrite Hstep in Henv. cbn in Henv.
    apply (IH (kg y) w' (Hk y)). by rewrite Henv.
Qed.

Lemma par_Unsetenv_Run_with {A} (l1 l2 : Prog W unit) (process : Process W)
  (K : option string -> Prog W A) sched (g : Prog W unit) (w : World W) :
  EnvSafe g ->
  par sched (_ <- os.Unsetenv (DaemonTag process) ;;
             bind (Run_with l1 process) K) g w
  = par sched (_ <- os.Unsetenv (DaemonTag process) ;;
               bind (Run_with l2 process) K) g w.
Proof.
  revert g w. induction sched as [| mine sched IH]; intros g w Hg.
  { cbn [par]. unfold then_join. rewrite !run_bind. cbn [run os.Unsetenv Ret].
    rewrite (run_Run_with_launcher l1 l2); [reflexivity |].
    cbn. by rewrite getenv_delete. }
  assert (Hrun : run (_ <- os.Unsetenv (DaemonTag process) ;;
                      bind (Run_with l1 process) K) w
                 = run (_ <- os.Unsetenv (DaemonTag process) ;;
                        bind (Run_with l2 process) K) w).
  { rewrite !run_bind. cbn [run os.Unsetenv Ret].
    rewrite (run_Run_with_launcher l1 l2); [reflexivity |].
    cbn. by rewrite getenv_delete. }
  destruct g as [[] | Y sg kg]; try exact Hrun; try reflexivity.
  destruct mine.
  - cbn [bind par os.Unsetenv Ret].
    apply par_Run_with_launcher; [exact Hg |]. cbn. by rewrite getenv_delete.
  - destruct Hg as [Henv Hk]. cbn [bind par os.Unsetenv].
    destruct (sg w) as [y w'] eqn:Hstep.
    apply (IH (kg y) w' (Hk y)).
Qed.

(** What a handler does never depends on the signals still to come. *)
Lemma invoke_pending_irrelevant (l1 l2 : Prog W unit) (handler : Handler W)
  (process : Process W) (w : World W) :
  run (invoke l1 handler process) w = run (invoke l2 handler process) w.
Proof.
  destruct handler; try reflexivity.
  cbn [invoke]. unfold restartHandle. rewrite !run_bind.
  destruct (run (Pid.Remove (Pid process)) w) as [[] w1]; try reflexivity.
  rewrite !run_bind. unfold Par. cbn [run].
  rewrite (par_Unsetenv_Run_with l1 l2); [reflexivity |].
  cbn. repeat split. intros [e |]; cbn; repeat split.
Qed.
End Reentry.

(** ** The dispatch loop and the handlers *)

Section Loop.
Context `{Worker W}.

(** X1.  [Listen] treats a signal that has no handler as if it had not
    come, wherever it comes: the loop does on the signals received what it
    does on those of them that have a handler. *)
Theorem Listen_unregistered_dropped (process : Process W)
  (received : list Signal) (w : World W) :
  run (Listen received process) w
  = run (Listen
           (List.filter
              (fun sig => bool_decide (is_Some (SignalHandlers process !! sig)))
              received)
           process) w.
Proof.
  revert w. induction received as [| sig rest IH]; intros w; [reflexivity |].
  cbn [List.filter Listen].
  destruct (SignalHandlers process !! sig) as [handler |] eqn:Hsig.
  - rewrite bool_decide_eq_true_2 by eauto. cbn [Listen]. rewrite Hsig.
    rewrite !run_bind.
    rewrite (invoke_pending_irrelevant
               (Listen rest process)
               (Listen
                  (List.filter
                     (fun sig =>
                        bool_decide (is_Some (SignalHandlers process !! sig)))
                     rest)
                  process)).
    destruct (run (invoke _ handler process) w) as [[] w']; try reflexivity.
    apply IH.
  - rewrite bool_decide_eq_false_2 by (intros [? ?]; discriminate). apply IH.
Qed.

(** The loop does not return. *)
Lemma Listen_never_returns (process : Process W) (received : list Signal)
  (w : World W) :
  (run (Listen received process) w).1 <> Ok tt.
Proof.
  revert w. induction received as [| sig rest IH]; intros w; [discriminate |].
  cbn [Listen]. destruct (SignalHandlers process !! sig) as [handler |].
  - rewrite run_bind.
    destruct (run (invoke _ handler process) w) as [[] w'];
      [apply IH | discriminate ..].
  - apply IH.
Qed.

(** X2.  In the child, [Run] never returns [nil]: it returns the error of
    [Save], or it does not return (it waits for signals, exits or panics). *)
Theorem Run_child_never_returns_nil (process : Process W)
  (received : list Signal) (w : World W) :
  os.getenv (w_env w) (DaemonTag process) = "true" ->
  (run (Run received process) w).1 <> Ok None
  /\ (forall e, (run (Run received process) w).1 = Ok (Some e) ->
                (run (Pid.Save (Pid process)) w).1 = Ok (Some e)).
Proof.
  intros Htag. unfold Run. rewrite (Run_with_child _ _ _ Htag).
  destruct (run (Pid.Save (Pid process)) w) as [[[e |] | | |] w1];
    try (split; [discriminate | intros e'; cbn; congruence]).
  rewrite run_bind.
  pose proof (Listen_never_returns process received (listening w1)) as Hl.
  fold (listening w1).
  destruct (run (Listen received process) (listening w1)) as [[[] | | |] w2];
    cbn in *; [done | split; [discriminate | intros e'; discriminate] ..].
Qed.

(** X3.  Each of the three default handlers ends the process and never
    gives the loop back its turn: it exits with status 0 when the path of
    the PID file resolves, and panics with the error of [os.Getwd] when it
    does not. *)
Theorem default_handlers_end_process (listen : Prog W unit)
  (process : Process W) (w : World W) :
  let outcome : Result unit :=
    match filepath.absolute (h_getwd (w_host w))
                            (Pid.SavePath (Pid process)) with
    | inl _ => Exited 0
    | inr err => Panicked err
    end in
  (run (invoke listen DefaultInterruptHandle process) w).1 = outcome
  /\ (run (invoke listen DefaultStopHandle process) w).1 = outcome
  /\ (run (invoke listen DefaultRestartHandle process) w).1 = outcome.
Proof.
  intros outcome. subst outcome.
  destruct (filepath.absolute _ _) as [dir | err] eqn:Hdir.
  - change (invoke listen DefaultInterruptHandle process)
      with (stopHandle process).
    cbn [invoke]. rewrite (stopHandle_run process w dir Hdir).
    destruct (restartHandle_run listen process w dir Hdir)
      as (w' & tr & -> & _).
    repeat split.
  - assert (Hstop : (run (stopHandle process) w).1 = Panicked err).
    { unfold stopHandle. rewrite run_bind. cbn [run worker_Stop Ret].
      rewrite run_bind.
      set (w1 := log _ _).
      assert (Hrm : forall v : World W, w_host v = w_host w ->
                 run (Pid.Remove (Pid process) ;; os.Exit (A := unit) 0) v
                 = (Panicked err, (run (Pid.Remove (Pid process)) v).2)).
      { intros v Hv. rewrite run_bind.
        pose proof (Remove_run_panic (Pid process) v err) as Hp.
        rewrite Hv in Hp. specialize (Hp Hdir).
        destruct (run (Pid.Remove (Pid process)) v) as [r v']. cbn in Hp.
        by subst r. }
      destruct (Stop (w_worker w)).1 as [e |]; cbn [run os.WriteString Ret];
        rewrite Hrm by reflexivity; reflexivity. }
    split; [exact Hstop |]. split; [exact Hstop |].
    cbn [invoke]. unfold restartHandle. rewrite run_bind.
    pose proof (Remove_run_panic (Pid process) w err Hdir) as Hp.
    destruct (run (Pid.Remove (Pid process)) w) as [r v']. cbn in Hp.
    by subst r.
Qed.

(** X4.  A handler registered with [On] is the one the loop calls for its
    signal, in place of any handler registered for that signal before, and
    nothing else is called for it; if the handler returns, the loop goes on
    with the next signal. *)
Theorem custom_handler_only (process : Process W) (sig : Signal)
  (fn : World W -> Result unit * World W) (rest : list Signal) (w : World W) :
  let process' := On sig (UserHandle fn) process in
  run (Listen (sig :: rest) process') w
  = match fn w with
    | (Ok _, w1) => run (Listen rest process') w1
    | (Panicked msg, w1) => (Panicked msg, w1)
    | (Exited code, w1) => (Exited code, w1)
    | (Blocked, w1) => (Blocked, w1)
    end.
Proof.
  intros process'.
  rewrite (Listen_registered process' sig rest (UserHandle fn))
    by apply lookup_insert_eq.
  rewrite run_bind. cbn [invoke run].
  destruct (fn w) as [[] w1]; reflexivity.
Qed.


(** X6.  A child whose [Save] succeeds and which receives no signal it has a
    handler for stays alive, waiting: the PID file holds the decimal text of
    its identifier, [Start] has been launched once, and nothing else has
    happened. *)
Theorem Run_child_waits (process : Process W) (received : list Signal)
  (w w1 : World W) :
  Forall (fun sig => SignalHandlers process !! sig = None) received ->
  os.getenv (w_env w) (DaemonTag process) = "true" ->
  run (Pid.Save (Pid process)) w = (Ok None, w1) ->
  exists filename fd,
    run (Pid.SaveFilename (Pid process)) w = (Ok filename, w)
    /\ run (Run received process) w = (Blocked, listening w1)
    /\ w_trace (listening w1)
       = w_trace w
           ++ [EvOpenWrite filename (strconv.Itoa (Pid.Pid (Pid process))) fd;
               EvWorkerStart]
    /\ w_files (listening w1)
       = <[filename := strconv.Itoa (Pid.Pid (Pid process))]> (w_files w)
    /\ w_worker (listening w1) = Start (w_worker w)
    /\ w_env (listening w1) = w_env w.
Proof.
  intros Hpre Htag Hsave. unfold Run.
  rewrite (Run_with_child _ _ _ Htag), Hsave.
  destruct (Save_ok_inv _ _ _ Hsave) as (dir & Hdir & Hden & ->).
  exists (pid_file dir (Pid.ServicesName (Pid process))), (fresh (w_open w)).
  rewrite SaveFilename_run, Hdir. split; [reflexivity |].
  rewrite <- (app_nil_r received), (Listen_dropped _ _ _ Hpre).
  split; [reflexivity |]. cbn.
  split; [by rewrite <- app_assoc |]. repeat split.
Qed.
End Loop.

(** ** Decimal text, written and read back *)

Section Decimal.

Lemma digits_string_of_uint (d : Decimal.uint) (acc : Z) :
  atoi.digits (NilEmpty.string_of_uint d) acc = Some (value d acc).
Proof. revert acc. induction d; intros acc; cbn; [reflexivity | apply IHd ..]. Qed.

Lemma value_acc (d : Decimal.uint) (p : positive) :
  value d (Z.pos p) = Z.pos (Pos.of_uint_acc d p).
Proof.
  revert p. induction d; intros p; cbn [value Pos.of_uint_acc];
    [reflexivity | ..];
    match goal with
    | |- value _ ?a = Z.pos (Pos.of_uint_acc _ ?q) =>
        replace a with (Z.pos q) by lia
    end; apply IHd.
Qed.

Lemma value_of_uint (d : Decimal.uint) :
  value d 0 = Z.of_N (Pos.of_uint d).
Proof.
  induction d; cbn [value Pos.of_uint]; [reflexivity | exact IHd | ..];
    cbn [Z.mul Z.add Z.of_N]; apply value_acc.
Qed.

Lemma value_to_uint (p : positive) : value (Pos.to_uint p) 0 = Z.pos p.
Proof. by rewrite value_of_uint, DecimalPos.Unsigned.of_to. Qed.

Lemma string_of_uint_head (d : Decimal.uint) :
  d <> Decimal.Nil ->
  exists ch rest,
    NilZero.string_of_uint d = String ch rest
    /\ NilEmpty.string_of_uint d = String ch rest
    /\ Ascii.eqb ch "-" = false /\ Ascii.eqb ch "+" = false.
Proof.
  destruct d; [done | ..]; intros _; eexists _, _; cbn; repeat split.
Qed.

Lemma value_ge (d : Decimal.uint) (acc : Z) : 0 <= acc -> acc <= value d acc.
Proof.
  revert acc. induction d; intros acc Hacc; cbn [value]; [lia | ..];
    match goal with
    | |- _ <= value _ ?a => specialize (IHd a ltac:(lia)); lia
    end.
Qed.

Lemma maxUint64_eq : atoi.maxUint64 = 18446744073709551615.
Proof. reflexivity. Qed.

(** The loop of [ParseUint] on a numeral that fits 64 bits. *)
Lemma parse_digits_string_of_uint (s0 : string) (d : Decimal.uint) (acc : Z) :
  0 <= acc -> value d acc <= atoi.maxUint64 ->
  atoi.parse_digits s0 (NilEmpty.string_of_uint d) acc = (value d acc, None).
Proof.
  rewrite maxUint64_eq.
  revert acc. induction d; intros acc Hacc Hmax;
    cbn [NilEmpty.string_of_uint atoi.parse_digits value] in *;
    [reflexivity | ..];
    match goal with
    | H : value _ ?a <= _ |- _ =>
        pose proof (value_ge d a ltac:(lia)) as Hge;
        match goal with
        | |- context [atoi.digit ?c] =>
            let v := eval vm_compute in (atoi.digit c) in
            change (atoi.digit c) with v
        end;
        rewrite maxUint64_eq;
        change (18446744073709551615 / 10 + 1) with 1844674407370955162;
        rewrite (proj2 (Z.leb_gt _ _)) by lia;
        cbn zeta; rewrite (proj2 (Z.ltb_ge _ _)) by lia;
        apply IHd; lia
    end.
Qed.

(** [Atoi] on a numeral, and on a numeral after a minus sign. *)
Lemma Atoi_unsigned (d : Decimal.uint) :
  d <> Decimal.Nil -> value d 0 <= atoi.max_int ->
  atoi.Atoi (NilEmpty.string_of_uint d) = inl (value d 0).
Proof.
  intros Hd Hmax.
  assert (Hmax' : value d 0 <= 9223372036854775807) by exact Hmax.
  destruct (string_of_uint_head d Hd) as (ch & rest & _ & Hs & Hm & Hp).
  pose proof (digits_string_of_uint d 0) as Hfast.
  pose proof (parse_digits_string_of_uint
                (NilEmpty.string_of_uint d) d 0 ltac:(lia)
                ltac:(rewrite maxUint64_eq; lia)) as Hslow.
  rewrite Hs in Hfast, Hslow |- *.
  unfold atoi.Atoi.
  match goal with |- context [if ?b then _ else _] => destruct b end.
  - rewrite Hm, Hp. cbn [orb]. by rewrite Hfast.
  - unfold atoi.ParseInt, atoi.ParseUint.
    rewrite Hm, Hp. cbn [orb negb andb]. rewrite Hslow. cbn [fst snd].
    change (2 ^ 63) with 9223372036854775808.
    by rewrite (proj2 (Z.leb_gt _ _)) by lia.
Qed.

Lemma Atoi_negative (d : Decimal.uint) :
  d <> Decimal.Nil -> value d 0 <= - atoi.min_int ->
  atoi.Atoi (String "-" (NilEmpty.string_of_uint d)) = inl (- value d 0).
Proof.
  intros Hd Hmax.
  assert (Hmax' : value d 0 <= 9223372036854775808) by exact Hmax.
  destruct (string_of_uint_head d Hd) as (ch & rest & _ & Hs & Hm & Hp).
  pose proof (digits_string_of_uint d 0) as Hfast.
  pose proof (parse_digits_string_of_uint
                (NilEmpty.string_of_uint d) d 0 ltac:(lia)
                ltac:(rewrite maxUint64_eq; lia)) as Hslow.
  rewrite Hs in Hfast, Hslow |- *.
  unfold atoi.Atoi.
  match goal with |- context [if ?b then _ else _] => destruct b end.
  - cbn [Ascii.eqb Bool.eqb orb]. by rewrite Hfast.
  - unfold atoi.ParseInt, atoi.ParseUint.
    cbn [Ascii.eqb Bool.eqb orb negb andb]. rewrite Hslow. cbn [fst snd].
    change (2 ^ 63) with 9223372036854775808.
    by rewrite (proj2 (Z.ltb_ge _ _)) by lia.
Qed.

(** What [Save] writes, [stop] and [restart] read back: for every
    identifier that fits a 64-bit [int], [strconv.Atoi] of its
    [strconv.Itoa] is the identifier. *)
Lemma Atoi_Itoa (i : Z) :
  atoi.min_int <= i <= atoi.max_int ->
  atoi.Atoi (strconv.Itoa i) = inl i.
Proof.
  intros Hi. unfold strconv.Itoa. destruct i as [| p | p].
  - reflexivity.
  - cbn [Z.to_int NilZero.string_of_int].
    destruct (string_of_uint_head (Pos.to_uint p))
      as (ch & rest & Hs & Hs' & _);
      [apply DecimalPos.Unsigned.to_uint_nonnil |].
    rewrite Hs, <- Hs', Atoi_unsigned, value_to_uint;
      [reflexivity | apply DecimalPos.Unsigned.to_uint_nonnil
      | rewrite value_to_uint; lia].
  - cbn [Z.to_int NilZero.string_of_int].
    destruct (string_of_uint_head (Pos.to_uint p))
      as (ch & rest & Hs & Hs' & _);
      [apply DecimalPos.Unsigned.to_uint_nonnil |].
    rewrite Hs, <- Hs', Atoi_negative, value_to_uint;
      [reflexivity | apply DecimalPos.Unsigned.to_uint_nonnil
      | rewrite value_to_uint; unfold atoi.min_int in *; lia].
Qed.
End Decimal.

(** ** The setters and the PID record *)

Section SettersAndRecord.
Context `{Worker W}.

Lemma foldl_insert_imap {A} (ps l : list A) (n : nat) :
  (n + length ps <= length l)%nat ->
  foldl (fun pl ip => <[ip.1 := ip.2]> pl) l (imap (fun i => pair (n + i)%nat) ps)
  = take n l ++ ps ++ drop (n + length ps) l.
Proof.
  revert l n. induction ps as [| x ps IH]; intros l n Hlen.
  - cbn. by rewrite Nat.add_0_r, take_drop.
  - cbn [imap foldl length] in *. rewrite Nat.add_0_r. cbn [fst snd].
    rewrite (imap_ext _ (fun i => pair (S n + i)%nat) ps)
      by (intros; cbn; f_equal; lia).
    rewrite IH by (rewrite length_insert; lia).
    rewrite (take_S_r _ _ x) by (apply list_lookup_insert_eq; lia).
    rewrite take_insert_ge by lia. rewrite drop_insert_lt by lia.
    rewrite <- app_assoc. cbn. by rewrite Nat.add_succ_r.
Qed.

(** X7.  [SetPipeline] stores the first three of the pipes it is given, at
    their indices, and ignores the others; with fewer than three it leaves
    the streams further on as they were.  Nothing else in the process
    changes. *)
Theorem SetPipeline_spec (pipes : list (option Fd)) (process : Process W) :
  length (Pipeline process) = 3%nat ->
  Pipeline (SetPipeline pipes process)
  = take 3 pipes ++ drop (length pipes) (Pipeline process)
  /\ length (Pipeline (SetPipeline pipes process)) = 3%nat
  /\ Pid (SetPipeline pipes process) = Pid process
  /\ DaemonTag (SetPipeline pipes process) = DaemonTag process
  /\ SignalHandlers (SetPipeline pipes process) = SignalHandlers process.
Proof.
  intros Hlen.
  assert (Hpipe : Pipeline (SetPipeline pipes process)
                  = take 3 pipes ++ drop (length pipes) (Pipeline process)).
  { unfold SetPipeline. cbn [Pipeline].
    rewrite (imap_ext pair (fun i => pair (0 + i)%nat)) by done.
    case_decide as Hlong.
    - rewrite foldl_insert_imap by (rewrite length_take; lia).
      cbn [firstn Nat.add app]. rewrite length_take.
      rewrite Nat.min_l by lia.
      assert (H3 : (length (Pipeline process) <= 3)%nat) by lia.
      assert (Hp : (length (Pipeline process) <= length pipes)%nat) by lia.
      rewrite (drop_ge _ _ H3), (drop_ge _ _ Hp).
      reflexivity.
    - rewrite (foldl_insert_imap pipes (Pipeline process) 0) by lia.
      cbn [firstn Nat.add app].
      by rewrite (take_ge pipes) by lia. }
  split; [exact Hpipe |]. split; [| done].
  rewrite Hpipe, length_app, length_take, length_drop. lia.
Qed.

End SettersAndRecord.

(** ** The commands *)

Section CommandTheorems.
Context `{Worker W}.

(** The commands read the PID file at the path of the record. *)
Lemma read_pid_file_run {A} (pid : Pid.t) (k : string + ReadError -> Prog W A)
  (w : World W) (dir : string) :
  filepath.absolute (h_getwd (w_host w)) (Pid.SavePath pid) = inl dir ->
  run (filename <- Pid.SaveFilename pid ;; r <- ReadFile filename ;; k r) w
  = run (k match w_files w !! pid_file dir (Pid.ServicesName pid) with
           | Some data => inl data
           | None =>
               inr (mkReadError
                      true
                      ("open " +:+ pid_file dir (Pid.ServicesName pid)
                         +:+ ": no such file or directory"))
           end) w.
Proof.
  intros Hdir. rewrite run_bind, SaveFilename_run, Hdir. reflexivity.
Qed.

(** X9.  Without a PID file, [stop] does nothing: it sends no signal and
    returns, the world as it was. *)
Theorem stop_without_pid_file (worker : Process W) (w : World W)
  (dir : string) :
  filepath.absolute (h_getwd (w_host w)) (Pid.SavePath (Pid worker)) = inl dir ->
  w_files w !! pid_file dir (Pid.ServicesName (Pid worker)) = None ->
  run (stop_Run worker) w = (Ok None, w).
Proof.
  intros Hdir Hnone. unfold stop_Run.
  rewrite (read_pid_file_run _ _ _ dir Hdir), Hnone. reflexivity.
Qed.

(** X10.  What [Save] wrote in the child is what [stop] and [restart] read
    in the command's process: run on the files the child's [Save] left, from
    the same working directory, by a process of the same service name and
    save directory, [stop] signals the child's identifier with [SIGUSR1] and
    [restart] signals it with [SIGUSR2]; neither changes anything, and
    [restart] starts nothing, whatever its flag. *)
Theorem stop_restart_signal_saved_child (child cli : Process W)
  (flag : bool + string) (received : list Signal) (w w1 v : World W) :
  Pid.ServicesName (Pid cli) = Pid.ServicesName (Pid child) ->
  Pid.SavePath (Pid cli) = Pid.SavePath (Pid child) ->
  h_getwd (w_host v) = h_getwd (w_host w) ->
  atoi.min_int <= Pid.Pid (Pid child) <= atoi.max_int ->
  run (Pid.Save (Pid child)) w = (Ok None, w1) ->
  w_files v = w_files w1 ->
  run (stop_Run cli) v = (Ok (Some (Pid.Pid (Pid child), SIGUSR1)), v)
  /\ run (restart_Run flag received cli) v
     = (Ok (Some (Pid.Pid (Pid child), SIGUSR2)), v).
Proof.
  intros Hname Hpath Hwd Hrange Hsave Hfiles.
  destruct (Save_ok_inv _ _ _ Hsave) as (dir & Hdir & _ & ->).
  assert (Hdir' : filepath.absolute (h_getwd (w_host v)) (Pid.SavePath (Pid cli))
                  = inl dir) by (by rewrite Hwd, Hpath).
  unfold stop_Run, restart_Run.
  rewrite !(read_pid_file_run _ _ _ dir Hdir'), Hfiles, Hname.
  cbn [w_files]. rewrite lookup_insert_eq, (Atoi_Itoa _ Hrange).
  split; reflexivity.
Qed.

Lemma append_String (c : ascii) (s t : string) :
  String c s +:+ t = String c (s +:+ t).
Proof. reflexivity. Qed.

(** No decimal text ends with a newline. *)
Lemma digits_newline (s : string) (n : Z) :
  atoi.digits (s +:+ String (ascii_of_nat 10) EmptyString) n = None.
Proof.
  revert n. induction s as [| ch s IH]; intros n; [reflexivity |].
  rewrite append_String. cbn [atoi.digits].
  destruct (atoi.digit ch); [apply IH | done].
Qed.

(** The loop of [ParseUint] on a text that ends with a newline stops on an
    error: the syntax error at the first byte that is no digit, or the range
    error at a digit before it. *)
Lemma parse_digits_newline (s0 s : string) (n : Z) :
  exists e,
    atoi.parse_digits s0 (s +:+ String (ascii_of_nat 10) EmptyString) n
    = (match e with atoi.ErrSyntax => 0 | atoi.ErrRange => atoi.maxUint64 end,
       Some (atoi.mkNumError "ParseUint" s0 e)).
Proof.
  revert n. induction s as [| ch s IH]; intros n.
  - by exists atoi.ErrSyntax.
  - rewrite append_String. cbn [atoi.parse_digits].
    destruct (atoi.digit ch); [| by exists atoi.ErrSyntax].
    destruct (_ <=? n); [by exists atoi.ErrRange |].
    cbn zeta. destruct (_ <? _); [by exists atoi.ErrRange | apply IH].
Qed.

(** [Atoi] refuses a text that ends with a newline. *)
Lemma Atoi_newline (text : string) :
  let data := text +:+ String (ascii_of_nat 10) EmptyString in
  exists e,
    atoi.Atoi data = inr (atoi.mkNumError "Atoi" data e)
    /\ ((String.length data < 19)%nat -> e = atoi.ErrSyntax).
Proof.
  intros data. unfold atoi.Atoi.
  destruct ((0 <? String.length data)%nat && (String.length data <? 19)%nat)
    eqn:Hlen.
  - exists atoi.ErrSyntax. split; [| done]. subst data.
    destruct text as [| s0 rest]; [reflexivity |].
    rewrite append_String.
    destruct (Ascii.eqb s0 "-" || Ascii.eqb s0 "+").
    + destruct rest as [| s1 rest]; [reflexivity |].
      pose proof (digits_newline (String s1 rest) 0) as Hd.
      rewrite append_String in Hd |- *. by rewrite Hd.
    + pose proof (digits_newline (String s0 rest) 0) as Hd.
      rewrite append_String in Hd. by rewrite Hd.
  - assert (Hlong : ~ (String.length data < 19)%nat).
    { apply andb_false_iff in Hlen as [Hz%Nat.ltb_ge | Hl%Nat.ltb_ge]; [| lia].
      subst data.
      destruct text;
        [vm_compute in Hz
        | rewrite append_String in Hz; cbn [String.length] in Hz];
        lia. }
    assert (Hc1 : (2 ^ 63 <=? atoi.maxUint64) = true) by reflexivity.
    assert (Hc2 : (2 ^ 63 <? atoi.maxUint64) = true) by reflexivity.
    assert (Hint : exists e,
               (atoi.ParseInt data).2
               = Some (atoi.mkNumError "ParseInt" data e)).
    { subst data. unfold atoi.ParseInt, atoi.ParseUint.
      destruct text as [| s0 rest]; [by exists atoi.ErrSyntax |].
      rewrite append_String.
      assert (Hbody : forall body,
                exists e,
                  match body +:+ String (ascii_of_nat 10) EmptyString with
                  | EmptyString =>
                      (0,
                       Some (atoi.syntaxError
                               "ParseUint"
                               (body +:+ String (ascii_of_nat 10) EmptyString)))
                  | _ =>
                      atoi.parse_digits
                        (body +:+ String (ascii_of_nat 10) EmptyString)
                        (body +:+ String (ascii_of_nat 10) EmptyString) 0
                  end
                  = (match e with
                     | atoi.ErrSyntax => 0
                     | atoi.ErrRange => atoi.maxUint64
                     end,
                     Some (atoi.mkNumError
                             "ParseUint"
                             (body +:+ String (ascii_of_nat 10) EmptyString)
                             e))).
      { intros body.
        destruct (parse_digits_newline
                    (body +:+ String (ascii_of_nat 10) EmptyString) body 0)
          as (e & He).
        exists e. rewrite <- He. by destruct body. }
      destruct (Ascii.eqb s0 "+") eqn:Hplus, (Ascii.eqb s0 "-") eqn:Hminus;
        cbn [orb negb andb].
      - apply Ascii.eqb_eq in Hplus, Hminus. congruence.
      - destruct (Hbody rest) as (e & ->). exists e.
        destruct e; cbn [fst snd]; rewrite ?Hc1; reflexivity.
      - destruct (Hbody rest) as (e & ->). exists e.
        destruct e; cbn [fst snd]; rewrite ?Hc2; reflexivity.
      - destruct (Hbody (String s0 rest)) as (e & He).
        rewrite append_String in He. rewrite He. exists e.
        destruct e; cbn [fst snd]; rewrite ?Hc1; reflexivity. }
    destruct Hint as (e & ->). exists e. split; [reflexivity | done].
Qed.

(** X11.  A PID file whose text ends with a newline is not read as a number:
    [strconv.Atoi] returns its syntax error (its range error if the digits
    before the newline already overflow, which takes 19 bytes or more), and
    [stop] and [restart] panic with that error, having sent no signal and
    started nothing.  For ASCII text the message of the panic is that of the
    error, the newline quoted. *)
Theorem stop_restart_panic_on_newline (worker : Process W)
  (flag : bool + string) (received : list Signal) (w : World W)
  (dir text : string) :
  filepath.absolute (h_getwd (w_host w)) (Pid.SavePath (Pid worker)) = inl dir ->
  let data := text +:+ String (ascii_of_nat 10) EmptyString in
  w_files w !! pid_file dir (Pid.ServicesName (Pid worker)) = Some data ->
  exists e msg,
    atoi.Atoi data = inr (atoi.mkNumError "Atoi" data e)
    /\ ((String.length data < 19)%nat -> e = atoi.ErrSyntax)
    /\ run (stop_Run worker) w = (Panicked msg, w)
    /\ run (restart_Run flag received worker) w = (Panicked msg, w)
    /\ (atoi.is_ascii text = true ->
        msg = "strconv.Atoi: parsing " +:+ atoi.Quote data +:+ ": "
                +:+ match e with
                    | atoi.ErrSyntax => "invalid syntax"
                    | atoi.ErrRange => "value out of range"
                    end).
Proof.
  intros Hdir data Hdata.
  destruct (Atoi_newline text) as (e & Hatoi & Hshort). fold data in Hatoi.
  exists e, (atoi.Error (atoi.mkNumError "Atoi" data e)).
  split; [exact Hatoi |]. split; [exact Hshort |].
  unfold stop_Run, restart_Run.
  rewrite !(read_pid_file_run _ _ _ dir Hdir), Hdata, Hatoi.
  repeat split.
Qed.

(** [start] in a process that stays unmarked: in daemon mode, or with the
    empty tag, which [os.Setenv] refuses. *)
Lemma start_Run_unmarked (flag : bool + string) (received : list Signal)
  (worker : Process W) (w : World W) :
  isDaemon_of flag = true \/ DaemonTag worker = "" ->
  os.getenv (w_env w) (DaemonTag worker) <> "true" ->
  run (start_Run flag received worker) w = start_outcome worker w.
Proof.
  intros Hflag Htag.
  assert (Hpre : run (start_Run flag received worker) w
                 = run (err <- Run received worker ;;
                        match err with
                        | Some e =>
                            (if bool_decide
                                  (e = "resource temporarily unavailable")
                             then Println "resource temporarily unavailable" ;;
                                  os.Exit 0
                             else Ret tt) ;;
                            Panic e
                        | None => Ret tt
                        end) w).
  { unfold start_Run. rewrite run_bind.
    destruct (isDaemon_of flag) eqn:Hd; [reflexivity |].
    destruct Hflag as [? | Hempty]; [done |].
    cbn [negb]. rewrite run_bind. rewrite Hempty. reflexivity. }
  rewrite Hpre, run_bind. unfold Run. rewrite (Run_with_parent _ _ _ Htag).
  unfold start_outcome. fold (spawned worker w).
  destruct (spawn_result (w_host w)) as [e |]; [| reflexivity].
  unfold unavailable. case_bool_decide; reflexivity.
Qed.

(** X12.  [start] in daemon mode (the flag set, or not to be read), in a
    process that is not marked as a child: it spawns the child once, and
    returns if the child started and was released; on the error
    [resource temporarily unavailable] it prints that line and exits with
    status 0; on any other error of the spawn it panics with it. *)
Theorem start_daemon_mode (flag : bool + string) (received : list Signal)
  (worker : Process W) (w : World W) :
  isDaemon_of flag = true ->
  os.getenv (w_env w) (DaemonTag worker) <> "true" ->
  run (start_Run flag received worker) w = start_outcome worker w
  /\ count is_spawn (spawn_events worker (w_host w) (w_env w)) = 1%nat.
Proof.
  intros Hflag Htag. split.
  - apply start_Run_unmarked; [by left | exact Htag].
  - unfold spawn_events. by destruct (h_start_err _).
Qed.

(** X13.  [restart] without a PID file, in daemon mode, in a process that is
    not marked as a child: it spawns the child once and returns if the child
    started and was released; on any error of the spawn it panics, on
    [resource temporarily unavailable] as on the others. *)
Theorem restart_without_pid_file (flag : bool + string)
  (received : list Signal) (worker : Process W) (w : World W) (dir : string) :
  filepath.absolute (h_getwd (w_host w)) (Pid.SavePath (Pid worker)) = inl dir ->
  w_files w !! pid_file dir (Pid.ServicesName (Pid worker)) = None ->
  isDaemon_of flag = true ->
  os.getenv (w_env w) (DaemonTag worker) <> "true" ->
  run (restart_Run flag received worker) w
  = (match spawn_result (w_host w) with
     | None => Ok None
     | Some e => Panicked e
     end, spawned worker w).
Proof.
  intros Hdir Hnone Hflag Htag. unfold restart_Run.
  rewrite (read_pid_file_run _ _ _ dir Hdir), Hnone. cbn [IsNotExist].
  rewrite Hflag. cbn [negb]. rewrite run_bind. cbn [run Ret].
  rewrite run_bind. unfold Run. rewrite (Run_with_parent _ _ _ Htag).
  destruct (spawn_result (w_host w)); reflexivity.
Qed.

(** [os.Setenv] of a key that is not empty and has no [=] and no NUL. *)
Lemma Setenv_run (key value : string) (w : World W) :
  key <> "" -> has_char "=" key = false -> has_char zero key = false ->
  has_char zero value = false ->
  run (Setenv key value) w = (Ok None, set_env (<[key := value]> (w_env w)) w).
Proof.
  intros Hne He Hz Hv. unfold Setenv. cbn [run].
  rewrite bool_decide_eq_false_2 by exact Hne. rewrite He, Hz, Hv.
  reflexivity.
Qed.

(** X14.  [start --daemon=false], the daemon tag being a name [os.Setenv]
    accepts: the process marks itself as the child and runs the child path
    of [Run] in the foreground.  It starts no command; when [Save] succeeds
    and no signal with a handler comes, it stays, the workload started; when
    [Save] returns an error, [start] panics with it, unless its text is
    [resource temporarily unavailable]: it then prints that line and exits
    with status 0. *)
Theorem start_foreground (received : list Signal) (worker : Process W)
  (w : World W) :
  DaemonTag worker <> "" ->
  has_char "=" (DaemonTag worker) = false ->
  has_char zero (DaemonTag worker) = false ->
  Forall (fun sig => SignalHandlers worker !! sig = None) received ->
  let w0 := set_env (<[DaemonTag worker := "true"]> (w_env w)) w in
  run (start_Run (inl false) received worker) w
  = match run (Pid.Save (Pid worker)) w0 with
    | (Ok None, w1) => (Blocked, listening w1)
    | (Ok (Some e), w1) =>
        if bool_decide (e = unavailable)
        then (Exited 0,
              log (EvWriteString
                     (Some os.Stdout)
                     (unavailable +:+ String (ascii_of_nat 10) EmptyString))
                  w1)
        else (Panicked e, w1)
    | (Panicked msg, w1) => (Panicked msg, w1)
    | (Exited code, w1) => (Exited code, w1)
    | (Blocked, w1) => (Blocked, w1)
    end
  /\ count is_spawn
       (drop (length (w_trace w))
             (w_trace (run (start_Run (inl false) received worker) w).2))
     = 0%nat.
Proof.
  intros Hne He Hz Hpre w0.
  assert (Htag : os.getenv (w_env w0) (DaemonTag worker) = "true").
  { unfold os.getenv. rewrite bool_decide_eq_false_2 by exact Hne.
    cbn [w_env w0 set_env]. by rewrite lookup_insert_eq. }
  assert (Hrun : run (start_Run (inl false) received worker) w
                 = match run (Pid.Save (Pid worker)) w0 with
                   | (Ok None, w1) => (Blocked, listening w1)
                   | (Ok (Some e), w1) =>
                       if bool_decide (e = unavailable)
                       then (Exited 0,
                             log (EvWriteString
                                    (Some os.Stdout)
                                    (unavailable
                                       +:+ String (ascii_of_nat 10) EmptyString))
                                 w1)
                       else (Panicked e, w1)
                   | (Panicked msg, w1) => (Panicked msg, w1)
                   | (Exited code, w1) => (Exited code, w1)
                   | (Blocked, w1) => (Blocked, w1)
                   end).
  { unfold start_Run. cbn [isDaemon_of negb]. rewrite !run_bind.
    rewrite (Setenv_run _ _ _ Hne He Hz) by reflexivity. fold w0.
    cbn [run Ret]. rewrite run_bind. unfold Run.
    rewrite (Run_with_child _ _ _ Htag).
    destruct (run (Pid.Save (Pid worker)) w0) as [[[e |] | | |] w1];
      try reflexivity.
    - unfold unavailable. case_bool_decide; reflexivity.
    - rewrite <- (app_nil_r received), (Listen_dropped _ _ _ Hpre).
      reflexivity. }
  split; [exact Hrun |]. rewrite Hrun, Save_run.
  destruct (filepath.absolute _ _) as [dir | err];
    [| cbn; by rewrite drop_all].
  cbn zeta. case_bool_decide.
  - case_bool_decide; cbn; [by rewrite drop_app_length | by rewrite drop_all].
  - cbn. rewrite <- app_assoc, drop_app_length. reflexivity.
Qed.

(** X15.  With an empty daemon tag no process is ever the child: [IsChild]
    is false in every world, [os.Setenv] refuses the tag, and
    [start --daemon=false] spawns a command as [start] in daemon mode does. *)
Theorem empty_tag_never_child (flag : bool + string) (received : list Signal)
  (worker : Process W) (w : World W) :
  DaemonTag worker = "" ->
  run (IsChild worker) w = (Ok false, w)
  /\ run (Setenv (DaemonTag worker) "true") w
     = (Ok (Some "setenv: invalid argument"), w)
  /\ run (start_Run flag received worker) w = start_outcome worker w.
Proof.
  intros Hempty.
  split; [unfold IsChild; cbn; by rewrite Hempty |].
  split; [by rewrite Hempty |].
  apply start_Run_unmarked; [by right |]. rewrite Hempty. discriminate.
Qed.

(** The last entry of a key is the one the started process finds. *)
Lemma cut_entry (key value : string) :
  has_char "=" key = false -> cut (key +:+ "=" +:+ value) = Some (key, value).
Proof.
  unfold has_char. induction key as [| c key IH]; [reflexivity |].
  rewrite append_String. cbn [list_ascii_of_string existsb cut].
  intros [Hc Hkey]%orb_false_iff.
  rewrite Ascii.eqb_sym, Hc, (IH Hkey). reflexivity.
Qed.

Lemma env_of_last (envs : list string) (key value : string) :
  has_char "=" key = false ->
  env_of (envs ++ [key +:+ "=" +:+ value]) !! key = Some value.
Proof.
  intros Hkey. unfold env_of. rewrite foldl_app. cbn [foldl].
  rewrite (cut_entry _ _ Hkey). apply lookup_insert_eq.
Qed.

(** X16.  The launcher and the child agree on the mark, whatever the tag set
    with [SetDaemonTag], provided it is a name (not empty, no [=] in it): the
    launcher path of [Run] starts a command in whose environment [IsChild]
    is true, whether or not the launcher's environment had the variable. *)
Theorem launcher_marks_child (tag : string) (process : Process W)
  (received : list Signal) (w v : World W) :
  tag <> "" ->
  has_char "=" tag = false ->
  os.getenv (w_env w) tag <> "true" ->
  let process' := SetDaemonTag tag process in
  let cmd := child_command process' (w_host w) (w_env w) in
  (exists err w' rest,
     run (Run received process') w = (Ok err, w')
     /\ w_trace w' = w_trace w ++ EvCmdStart cmd (h_start_err (w_host w)) :: rest)
  /\ (w_env v = env_of (Env cmd) -> run (IsChild process') v = (Ok true, v)).
Proof.
  intros Hne Heq Htag process' cmd. split.
  - unfold Run. rewrite (Run_with_parent _ process' w) by exact Htag.
    eexists _, _, _. split; reflexivity.
  - intros Henv. unfold IsChild. cbn [run bind os.Getenv Ret DaemonTag process'
                                      SetDaemonTag].
    unfold os.getenv. rewrite (bool_decide_eq_false_2 (tag = "")) by exact Hne.
    rewrite Henv. cbn [Env cmd child_command DaemonTag process' SetDaemonTag].
    rewrite (env_of_last _ tag "true" Heq). reflexivity.
Qed.

(** The signals before the first that has a handler. *)
Lemma first_default_signal (received : list Signal) :
  existsb is_default_signal received = false
  \/ exists pre sig rest,
       received = pre ++ sig :: rest
       /\ existsb is_default_signal pre = false
       /\ is_default_signal sig = true.
Proof.
  induction received as [| sig rest IH]; [by left |].
  destruct (is_default_signal sig) eqn:Hsig.
  - right. exists [], sig, rest. done.
  - destruct IH as [Hnone | (pre & sig' & rest' & -> & Hpre & Hsig')].
    + left. cbn. by rewrite Hsig.
    + right. exists (sig :: pre), sig', rest'. cbn. by rewrite Hsig.
Qed.

(** X17.  The life of a child built by [NewProcess]: once its PID record is
    saved, the process waits as long as none of the interrupt signal,
    [SIGUSR1] and [SIGUSR2] comes, and at the first of them it exits with
    status 0; every other signal is ignored. *)
Theorem NewProcess_child_lifetime (received : list Signal) (w w1 : World W) :
  os.getenv (w_env w) EnvName = "true" ->
  exists process,
    run NewProcess w = (Ok process, w)
    /\ (run (Pid.Save (Pid process)) w = (Ok None, w1) ->
        (run (Run received process) w).1
        = if existsb is_default_signal received then Exited 0 else Blocked).
Proof.
  intros Htag. eexists. split; [reflexivity |].
  set (process := registerDefaultRestartHandle _).
  intros Hsave.
  assert (Hother : forall l, existsb is_default_signal l = false ->
            Forall (fun sig => SignalHandlers process !! sig = None) l).
  { induction l as [| sig l IH]; [constructor |].
    cbn [existsb]. intros [Hsig Hl]%orb_false_iff.
    constructor; [| by apply IH].
    unfold is_default_signal in Hsig.
    apply orb_false_iff in Hsig as [[H1 H2]%orb_false_iff H3].
    apply Z.eqb_neq in H1, H2, H3.
    cbn. rewrite !lookup_insert_ne by done. apply lookup_empty. }
  assert (Hhandled : forall sig, is_default_signal sig = true ->
            exists handler,
              SignalHandlers process !! sig = Some handler
              /\ (handler = DefaultInterruptHandle
                  \/ handler = DefaultStopHandle
                  \/ handler = DefaultRestartHandle)).
  { intros sig Hsig. unfold is_default_signal in Hsig.
    apply orb_true_iff in Hsig as [[->%Z.eqb_eq | ->%Z.eqb_eq]%orb_true_iff
                                  | ->%Z.eqb_eq];
      eexists; (split; [vm_compute; reflexivity |]); tauto. }
  destruct (first_default_signal received)
    as [Hnone | (pre & sig & rest & -> & Hpre & Hsig)].
  - rewrite Hnone. unfold Run.
    rewrite (Run_with_child _ process w Htag), Hsave.
    rewrite <- (app_nil_r received), (Listen_dropped _ _ _ (Hother _ Hnone)).
    reflexivity.
  - rewrite existsb_app. cbn [existsb]. rewrite Hsig, orb_true_r.
    destruct (Hhandled sig Hsig) as (handler & Hreg & Hdefault).
    rewrite (Run_child_signal _ _ _ _ _ _ _ Hreg (Hother _ Hpre) Htag Hsave).
    destruct (Save_ok_inv _ _ _ Hsave) as (dir & Hdir & _ & Hw1).
    assert (Hdir1 : filepath.absolute (h_getwd (w_host (listening w1)))
                                      (Pid.SavePath (Pid process)) = inl dir)
      by (by rewrite Hw1).
    destruct Hdefault as [-> | [-> | ->]]; cbn [invoke].
    + change (interruptHandle process) with (stopHandle process).
      by rewrite (stopHandle_run process _ dir Hdir1).
    + by rewrite (stopHandle_run process _ dir Hdir1).
    + destruct (restartHandle_run (Listen rest process) process _ dir Hdir1)
        as (w' & tr & -> & _).
      reflexivity.
Qed.
End CommandTheorems.

(** ** The example, through the commands *)

Lemma Run_child_never_returns_nil_witness :
  os.getenv (w_env child_world) (DaemonTag example_process) = "true"
  /\ (run (Run [SIGTERM] example_process) child_world).1 <> Ok None.
Proof.
  assert (Htag : os.getenv (w_env child_world) (DaemonTag example_process)
                 = "true") by (vm_compute; reflexivity).
  split; [exact Htag |].
  exact (proj1 (Run_child_never_returns_nil example_process [SIGTERM]
                  child_world Htag)).
Defined.


Lemma Run_child_waits_witness :
  Forall (fun sig => SignalHandlers example_process !! sig = None) [SIGTERM]
  /\ os.getenv (w_env child_world) (DaemonTag example_process) = "true"
  /\ run (Pid.Save (Pid example_process)) child_world
     = (Ok None, saved child_world)
  /\ run (Run [SIGTERM] example_process) child_world
     = (Blocked, listening (saved child_world))
  /\ w_trace (listening (saved child_world))
     = [EvOpenWrite "/srv/app/http.pid" "4242" 3%nat; EvWorkerStart].
Proof.
  assert (Hpre : Forall (fun sig => SignalHandlers example_process !! sig = None)
                        [SIGTERM])
    by (constructor; [vm_compute; reflexivity | constructor]).
  assert (Htag : os.getenv (w_env child_world) (DaemonTag example_process)
                 = "true") by (vm_compute; reflexivity).
  assert (Hsave : run (Pid.Save (Pid example_process)) child_world
                  = (Ok None, saved child_world)) by (vm_compute; reflexivity).
  split; [exact Hpre |]. split; [exact Htag |]. split; [exact Hsave |].
  destruct (Run_child_waits example_process [SIGTERM] child_world
              (saved child_world) Hpre Htag Hsave)
    as (filename & fd & _ & Hrun & _).
  split; [exact Hrun | vm_compute; reflexivity].
Defined.

Lemma SetPipeline_spec_witness :
  length (Pipeline example_process) = 3%nat
  /\ Pipeline (SetPipeline [None; Some 7%nat] example_process)
     = [None; Some 7%nat; Some os.Stderr]
  /\ Pipeline (SetPipeline [None; Some 7%nat; Some 8%nat; Some 9%nat]
                           example_process)
     = [None; Some 7%nat; Some 8%nat].
Proof.
  split; [reflexivity |].
  split.
  - exact (proj1 (SetPipeline_spec [None; Some 7%nat] example_process
                    eq_refl)).
  - exact (proj1 (SetPipeline_spec [None; Some 7%nat; Some 8%nat; Some 9%nat]
                    example_process eq_refl)).
Defined.


Lemma stop_without_pid_file_witness :
  filepath.absolute (h_getwd (w_host idle_world))
                    (Pid.SavePath (Pid cli_process)) = inl "/srv/app"
  /\ w_files idle_world !! pid_file "/srv/app" "http" = None
  /\ run (stop_Run cli_process) idle_world = (Ok None, idle_world).
Proof.
  split; [vm_compute; reflexivity |]. split; [vm_compute; reflexivity |].
  apply (stop_without_pid_file cli_process idle_world "/srv/app");
    vm_compute; reflexivity.
Defined.

Lemma stop_restart_signal_saved_child_witness :
  Pid.ServicesName (Pid cli_process) = Pid.ServicesName (Pid example_process)
  /\ Pid.SavePath (Pid cli_process) = Pid.SavePath (Pid example_process)
  /\ h_getwd (w_host cli_world) = h_getwd (w_host child_world)
  /\ atoi.min_int <= Pid.Pid (Pid example_process) <= atoi.max_int
  /\ run (Pid.Save (Pid example_process)) child_world
     = (Ok None, saved child_world)
  /\ w_files cli_world = w_files (saved child_world)
  /\ run (stop_Run cli_process) cli_world = (Ok (Some (4242, SIGUSR1)), cli_world)
  /\ run (restart_Run (inl true) [] cli_process) cli_world
     = (Ok (Some (4242, SIGUSR2)), cli_world).
Proof.
  assert (Hrange : atoi.min_int <= Pid.Pid (Pid example_process)
                   <= atoi.max_int) by (vm_compute; split; discriminate).
  assert (Hsave : run (Pid.Save (Pid example_process)) child_world
                  = (Ok None, saved child_world)) by (vm_compute; reflexivity).
  split; [reflexivity |]. split; [reflexivity |]. split; [reflexivity |].
  split; [exact Hrange |]. split; [exact Hsave |]. split; [reflexivity |].
  exact (stop_restart_signal_saved_child example_process cli_process
           (inl true) [] child_world (saved child_world) cli_world
           eq_refl eq_refl eq_refl Hrange Hsave eq_refl).
Defined.

Lemma stop_restart_panic_on_newline_witness :
  filepath.absolute (h_getwd (w_host newline_world))
                    (Pid.SavePath (Pid cli_process)) = inl "/srv/app"
  /\ w_files newline_world !! pid_file "/srv/app" "http"
     = Some ("4242" +:+ String (ascii_of_nat 10) EmptyString)
  /\ atoi.is_ascii "4242" = true
  /\ (run (stop_Run cli_process) newline_world).1
     = Panicked
         ("strconv.Atoi: parsing "
            +:+ String (ascii_of_nat 34)
                  ("4242\n" +:+ String (ascii_of_nat 34) ": invalid syntax")).
Proof.
  assert (Hdir : filepath.absolute (h_getwd (w_host newline_world))
                                   (Pid.SavePath (Pid cli_process))
                 = inl "/srv/app") by (vm_compute; reflexivity).
  assert (Hdata : w_files newline_world !! pid_file "/srv/app" "http"
                  = Some ("4242" +:+ String (ascii_of_nat 10) EmptyString))
    by (vm_compute; reflexivity).
  split; [exact Hdir |]. split; [exact Hdata |]. split; [reflexivity |].
  destruct (stop_restart_panic_on_newline cli_process (inl true) []
              newline_world "/srv/app" "4242" Hdir Hdata)
    as (e & msg & _ & Hshort & Hstop & _ & Hmsg).
  rewrite Hstop, (Hmsg eq_refl), Hshort by (vm_compute; lia).
  vm_compute. reflexivity.
Defined.

Lemma start_daemon_mode_witness :
  isDaemon_of (inr "flag accessed but not defined: daemon") = true
  /\ os.getenv (w_env unavailable_world) (DaemonTag example_process) <> "true"
  /\ (run (start_Run (inr "flag accessed but not defined: daemon") []
                     example_process) unavailable_world).1
     = Exited 0
  /\ (run (start_Run (inl true) [] example_process) start_fails_world_parent).1
     = Panicked "fork/exec /usr/local/bin/example: no such file or directory"
  /\ (run (start_Run (inl true) [] example_process) launcher_world).1 = Ok tt.
Proof.
  assert (Htag : forall h,
            os.getenv (w_env (example_world h parent_env None))
                      (DaemonTag example_process) <> "true")
    by (intros h; vm_compute; discriminate).
  split; [reflexivity |]. split; [apply Htag |].
  split; [| split].
  - destruct (start_daemon_mode (inr "flag accessed but not defined: daemon")
                [] example_process unavailable_world eq_refl (Htag _))
      as [-> _].
    vm_compute. reflexivity.
  - destruct (start_daemon_mode (inl true) [] example_process
                start_fails_world_parent eq_refl (Htag _)) as [-> _].
    vm_compute. reflexivity.
  - destruct (start_daemon_mode (inl true) [] example_process launcher_world
                eq_refl (Htag _)) as [-> _].
    vm_compute. reflexivity.
Defined.

Lemma restart_without_pid_file_witness :
  filepath.absolute (h_getwd (w_host unavailable_world))
                    (Pid.SavePath (Pid example_process)) = inl "/srv/app"
  /\ w_files unavailable_world !! pid_file "/srv/app" "http" = None
  /\ isDaemon_of (inl true) = true
  /\ os.getenv (w_env unavailable_world) (DaemonTag example_process) <> "true"
  /\ (run (restart_Run (inl true) [] example_process) unavailable_world).1
     = Panicked "resource temporarily unavailable".
Proof.
  assert (Hdir : filepath.absolute (h_getwd (w_host unavailable_world))
                                   (Pid.SavePath (Pid example_process))
                 = inl "/srv/app") by (vm_compute; reflexivity).
  assert (Hnone : w_files unavailable_world !! pid_file "/srv/app" "http"
                  = None) by (vm_compute; reflexivity).
  assert (Htag : os.getenv (w_env unavailable_world)
                           (DaemonTag example_process) <> "true")
    by (vm_compute; discriminate).
  split; [exact Hdir |]. split; [exact Hnone |]. split; [reflexivity |].
  split; [exact Htag |].
  rewrite (restart_without_pid_file (inl true) [] example_process
             unavailable_world "/srv/app" Hdir Hnone eq_refl Htag).
  reflexivity.
Defined.

Lemma start_foreground_witness :
  DaemonTag example_process <> ""
  /\ has_char "=" (DaemonTag example_process) = false
  /\ has_char zero (DaemonTag example_process) = false
  /\ Forall (fun sig => SignalHandlers example_process !! sig = None) [SIGTERM]
  /\ exists w',
       run (start_Run (inl false) [SIGTERM] example_process) launcher_world
       = (Blocked, w')
       /\ w_env w' = child_env
       /\ w_trace w'
          = [EvOpenWrite "/srv/app/http.pid" "4242" 3%nat; EvWorkerStart].
Proof.
  assert (Hne : DaemonTag example_process <> "") by discriminate.
  assert (Hpre : Forall (fun sig => SignalHandlers example_process !! sig = None)
                        [SIGTERM])
    by (constructor; [vm_compute; reflexivity | constructor]).
  split; [exact Hne |]. split; [reflexivity |]. split; [reflexivity |].
  split; [exact Hpre |].
  destruct (start_foreground [SIGTERM] example_process launcher_world
              Hne eq_refl eq_refl Hpre) as [-> _].
  eexists. split; [vm_compute; reflexivity |].
  split; vm_compute; reflexivity.
Defined.

Lemma empty_tag_never_child_witness :
  DaemonTag untagged_process = ""
  /\ run (IsChild untagged_process) child_world = (Ok false, child_world)
  /\ (run (start_Run (inl false) [] untagged_process) launcher_world).1 = Ok tt
  /\ count is_spawn
       (w_trace (run (start_Run (inl false) [] untagged_process)
                     launcher_world).2) = 1%nat.
Proof.
  split; [reflexivity |].
  split;
    [exact (proj1 (empty_tag_never_child (inl false) [] untagged_process
                     child_world eq_refl)) |].
  destruct (empty_tag_never_child (inl false) [] untagged_process
              launcher_world eq_refl) as (_ & _ & ->).
  split; vm_compute; reflexivity.
Defined.

Lemma launcher_marks_child_witness :
  own_tag <> ""
  /\ has_char "=" own_tag = false
  /\ os.getenv (w_env launcher_world) own_tag <> "true"
  /\ Env (child_command (SetDaemonTag own_tag example_process)
                        (w_host launcher_world) (w_env launcher_world))
     = ["PATH=/usr/bin"; "HTTP_CHILD=true"]
  /\ forall v : World HTTPServer,
       w_env v = env_of ["PATH=/usr/bin"; "HTTP_CHILD=true"] ->
       run (IsChild (SetDaemonTag own_tag example_process)) v = (Ok true, v).
Proof.
  assert (Hne : own_tag <> "") by discriminate.
  assert (Htag : os.getenv (w_env launcher_world) own_tag <> "true")
    by (vm_compute; discriminate).
  assert (Henv : Env (child_command (SetDaemonTag own_tag example_process)
                        (w_host launcher_world) (w_env launcher_world))
                 = ["PATH=/usr/bin"; "HTTP_CHILD=true"])
    by (vm_compute; reflexivity).
  split; [exact Hne |]. split; [reflexivity |]. split; [exact Htag |].
  split; [exact Henv |].
  intros v Hv. rewrite <- Henv in Hv.
  exact (proj2 (launcher_marks_child own_tag example_process [] launcher_world
                  v Hne eq_refl Htag) Hv).
Defined.

Lemma NewProcess_child_lifetime_witness :
  os.getenv (w_env child_world) EnvName = "true"
  /\ exists process,
       run NewProcess child_world = (Ok process, child_world)
       /\ (run (Run [SIGTERM; SIGTERM] process) child_world).1 = Blocked
       /\ (run (Run [SIGTERM; SIGUSR2; SIGUSR1] process) child_world).1
          = Exited 0.
Proof.
  assert (Htag : os.getenv (w_env child_world) EnvName = "true")
    by (vm_compute; reflexivity).
  split; [exact Htag |].
  destruct (NewProcess_child_lifetime [SIGTERM; SIGTERM] child_world
              (saved child_world) Htag) as (process & Hnew & Hwait).
  destruct (NewProcess_child_lifetime [SIGTERM; SIGUSR2; SIGUSR1] child_world
              (saved child_world) Htag) as (process' & Hnew' & Hexit).
  rewrite Hnew in Hnew'. injection Hnew' as <-.
  assert (Hp : process = example_process).
  { assert (Hex : run NewProcess child_world
                  = (Ok example_process, child_world))
      by (vm_compute; reflexivity).
    rewrite Hex in Hnew. by injection Hnew as <-. }
  subst process.
  assert (Hsave : run (Pid.Save (Pid example_process)) child_world
                  = (Ok None, saved child_world)) by (vm_compute; reflexivity).
  exists example_process. split; [exact Hnew |].
  split; [exact (Hwait Hsave) | exact (Hexit Hsave)].
Defined.
